(** * Storage layer of the document management backend

    A shallow embedding of [backend/src/services/document.service.ts]
    ([DocumentService]), of [backend/src/services/s3.service.ts]
    ([S3Service]), of [backend/src/config/base.config.ts] ([BaseConfig]),
    of [backend/src/controllers/document.controller.ts]
    ([DocumentController]) with its response models, and of the upload
    route of [backend/src/index.ts] (multer's disk storage).

    - JavaScript strings are lists of UTF-16 code units ([jsstr]).
    - Byte buffers ([Buffer]) are lists of [Byte.byte].
    - Every [async] method is a computation in a state and exception monad
      over a [World]: the local file system, the S3 bucket, the MongoDB
      collection, the clock, the source of [Math.random] and a log of the
      I/O calls the code performs.
    - A thrown [Error] carries its [message], which is what the callers
      inspect; the monad keeps the state reached at the throw. *)

From Stdlib Require Import List String Ascii NArith Bool Lia.
From Stdlib Require Import Sorting.Permutation Sorting.Sorted.
Import ListNotations.
Open Scope list_scope.

(** ** JavaScript strings *)

Definition jsstr := list N.

(** A string literal of the source, as its code units. *)
Fixpoint lit (s : string) : jsstr :=
  match s with
  | EmptyString => []
  | String c s' => N.of_nat (nat_of_ascii c) :: lit s'
  end.

Definition jseqb (a b : jsstr) : bool :=
  if list_eq_dec N.eq_dec a b then true else false.

(** JavaScript truthiness of an optional string: [undefined] and [""] are
    falsy. Returns the string when it is truthy. *)
Definition js_truthy_str (o : option jsstr) : option jsstr :=
  match o with
  | Some (c :: cs) => Some (c :: cs)
  | _ => None
  end.

(** [`${n}`] for a non-negative integer [n] (decimal, no leading zeros). *)
Fixpoint dec_aux (fuel : nat) (n : N) (acc : jsstr) : jsstr :=
  match fuel with
  | O => acc
  | S f =>
      let acc' := (48 + n mod 10)%N :: acc in
      if (n <? 10)%N then acc' else dec_aux f (n / 10)%N acc'
  end.

Definition dec_string (n : N) : jsstr := dec_aux (S (N.size_nat n)) n [].

Definition bytes := list Byte.byte.

(** Association lists for the file system and the bucket. *)
Fixpoint lookup {A} (k : jsstr) (l : list (jsstr * A)) : option A :=
  match l with
  | [] => None
  | (k', v) :: l' => if jseqb k' k then Some v else lookup k l'
  end.

Definition remove_key {A} (k : jsstr) (l : list (jsstr * A)) : list (jsstr * A) :=
  filter (fun kv => negb (jseqb (fst kv) k)) l.

Definition put_key {A} (k : jsstr) (v : A) (l : list (jsstr * A)) : list (jsstr * A) :=
  (k, v) :: remove_key k l.

(** ** BaseConfig *)

Record BaseConfig := mkBaseConfig { STORAGE_TYPE : jsstr }.

Definition isMongoDBStorage (cfg : BaseConfig) : bool :=
  jseqb (STORAGE_TYPE cfg) (lit "mongodb").

Definition isFileSystemStorage (cfg : BaseConfig) : bool :=
  jseqb (STORAGE_TYPE cfg) (lit "filesystem").

Definition isS3Storage (cfg : BaseConfig) : bool :=
  jseqb (STORAGE_TYPE cfg) (lit "s3").

(** The three backends of the spec, as the code dispatches on them: every
    value other than ["s3"] and ["mongodb"] takes the file system branch. *)
Inductive Backend := Filesystem | EmbeddedBlob | ObjectStorage.

Definition active_backend (cfg : BaseConfig) : Backend :=
  if isS3Storage cfg then ObjectStorage
  else if isMongoDBStorage cfg then EmbeddedBlob
  else Filesystem.

(** ** The document entity *)

(** The TypeORM entity [Document] ([backend/src/index.ts], lines 85-108):
    an [@ObjectIdColumn] [id], [name], the nullable [path], [buffer] and
    [s3Key], and the [@CreateDateColumn]/[@UpdateDateColumn] timestamps the
    store sets on insert. An ObjectId is kept as its 24 lower-case hex
    digits; [doc_id] is empty until [save] assigns it. *)
Record Document := mkDocument {
  doc_id : jsstr;
  name : jsstr;
  path : option jsstr;
  buffer : option bytes;
  s3Key : option jsstr;
  createdAt : N;
  updatedAt : N
}.

Definition new_Document : Document := mkDocument [] [] None None None 0 0.

Definition set_name (n : jsstr) (d : Document) : Document :=
  mkDocument (doc_id d) n (path d) (buffer d) (s3Key d) (createdAt d) (updatedAt d).
Definition set_path (p : jsstr) (d : Document) : Document :=
  mkDocument (doc_id d) (name d) (Some p) (buffer d) (s3Key d) (createdAt d) (updatedAt d).
Definition set_buffer (b : bytes) (d : Document) : Document :=
  mkDocument (doc_id d) (name d) (path d) (Some b) (s3Key d) (createdAt d) (updatedAt d).
Definition set_s3Key (k : jsstr) (d : Document) : Document :=
  mkDocument (doc_id d) (name d) (path d) (buffer d) (Some k) (createdAt d) (updatedAt d).

(** ** ObjectId *)

Definition hex_char (d : N) : N := if (d <? 10)%N then (48 + d)%N else (87 + d)%N.

Fixpoint hex_digits (k : nat) (n : N) : jsstr :=
  match k with
  | O => []
  | S k' => hex_digits k' (n / 16)%N ++ [hex_char (n mod 16)%N]
  end.

(** The hex string of the ObjectId the driver generates for the [n]-th
    insertion. *)
Definition hex24 (n : N) : jsstr := hex_digits 24 n.

Definition is_hex (c : N) : bool :=
  (((48 <=? c) && (c <=? 57)) || ((97 <=? c) && (c <=? 102))
   || ((65 <=? c) && (c <=? 70)))%N.

Definition to_lower (c : N) : N :=
  if ((65 <=? c) && (c <=? 90))%N then (c + 32)%N else c.

(** [new ObjectId(id)] on a string: 24 hex digits, any case; anything
    else throws a BSONError. *)
Definition parse_objectid (s : jsstr) : option jsstr :=
  if (Nat.eqb (List.length s) 24) && forallb is_hex s then Some (map to_lower s)
  else None.

Definition bson_error_msg : jsstr :=
  lit "input must be a 24 character hex string, 12 byte Uint8Array, or an integer".

(** ** The world and the monad *)

Inductive event :=
| EvReadFile (p : jsstr)
| EvUnlink (p : jsstr)
| EvS3Put (k : jsstr)
| EvS3Get (k : jsstr)
| EvS3Delete (k : jsstr)
| EvDbSave (o : jsstr)
| EvDbFind (o : jsstr)
| EvDbFindAll
| EvDbDelete (o : jsstr).

(** [w_s3_fault] and [w_db_fault] are [Some msg] when the bucket or the
    database is unreachable: every call then fails with [msg]. *)
Record World := mkWorld {
  w_fs : list (jsstr * bytes);
  w_unlink_denied : list jsstr;
  w_s3 : list (jsstr * bytes);
  w_s3_fault : option jsstr;
  w_db : list Document;
  w_db_fault : option jsstr;
  w_now : N;
  w_random : jsstr;
  w_next_oid : N;
  w_log : list event
}.

Definition with_fs (fs : list (jsstr * bytes)) (w : World) : World :=
  mkWorld fs (w_unlink_denied w) (w_s3 w) (w_s3_fault w) (w_db w) (w_db_fault w)
    (w_now w) (w_random w) (w_next_oid w) (w_log w).
Definition with_s3 (s3 : list (jsstr * bytes)) (w : World) : World :=
  mkWorld (w_fs w) (w_unlink_denied w) s3 (w_s3_fault w) (w_db w) (w_db_fault w)
    (w_now w) (w_random w) (w_next_oid w) (w_log w).
Definition with_db (db : list Document) (next : N) (w : World) : World :=
  mkWorld (w_fs w) (w_unlink_denied w) (w_s3 w) (w_s3_fault w) db (w_db_fault w)
    (w_now w) (w_random w) next (w_log w).
Definition log_event (e : event) (w : World) : World :=
  mkWorld (w_fs w) (w_unlink_denied w) (w_s3 w) (w_s3_fault w) (w_db w) (w_db_fault w)
    (w_now w) (w_random w) (w_next_oid w) (e :: w_log w).

Inductive result (A : Type) := Ok (a : A) | Err (message : jsstr).
Arguments Ok {A} a.
Arguments Err {A} message.

Definition M (A : Type) := World -> result A * World.

Definition ret {A} (a : A) : M A := fun w => (Ok a, w).

Definition bind {A B} (m : M A) (k : A -> M B) : M B :=
  fun w => match m w with
           | (Ok a, w') => k a w'
           | (Err e, w') => (Err e, w')
           end.

Definition throw {A} (msg : jsstr) : M A := fun w => (Err msg, w).

(** [try { m } catch (error) { h(error.message) }] *)
Definition try_catch {A} (m : M A) (h : jsstr -> M A) : M A :=
  fun w => match m w with
           | (Ok a, w') => (Ok a, w')
           | (Err e, w') => h e w'
           end.

Notation "x <- m ;; k" := (bind m (fun x => k))
  (at level 61, m at next level, right associativity).
Notation "m ;;; k" := (bind m (fun _ => k))
  (at level 61, right associativity).

(** ** I/O primitives *)

(** [fs.readFile(path)]; with ['utf-8'] the caller decodes the bytes. *)
Definition fs_readFile (p : jsstr) : M bytes := fun w =>
  let w' := log_event (EvReadFile p) w in
  match lookup p (w_fs w) with
  | Some b => (Ok b, w')
  | None => (Err (lit "ENOENT: no such file or directory, open '" ++ p ++ lit "'"), w')
  end.

(** [fs.unlink(path)]: fails when the file is absent or the process may
    not remove it. *)
Definition fs_unlink (p : jsstr) : M unit := fun w =>
  let w' := log_event (EvUnlink p) w in
  if existsb (jseqb p) (w_unlink_denied w) then
    (Err (lit "EACCES: permission denied, unlink '" ++ p ++ lit "'"), w')
  else match lookup p (w_fs w) with
       | Some _ => (Ok tt, with_fs (remove_key p (w_fs w)) w')
       | None => (Err (lit "ENOENT: no such file or directory, unlink '" ++ p ++ lit "'"), w')
       end.

(** The collection behind [documentRepo]. [save] of a new entity lets the
    driver generate the ObjectId; [_id] is unique in the collection. *)
Definition drop_id (o : jsstr) (db : list Document) : list Document :=
  filter (fun x => negb (jseqb (doc_id x) o)) db.

Definition find_doc (db : list Document) (o : jsstr) : option Document :=
  find (fun x => jseqb (doc_id x) o) db.

Definition repo_save (d : Document) : M Document := fun w =>
  let o := hex24 (w_next_oid w) in
  let w' := log_event (EvDbSave o) w in
  match w_db_fault w with
  | Some e => (Err e, w')
  | None =>
      let d' := mkDocument o (name d) (path d) (buffer d) (s3Key d) (w_now w) (w_now w) in
      (Ok d', with_db (d' :: drop_id o (w_db w)) (N.succ (w_next_oid w)) w')
  end.

Definition repo_findOneBy (o : jsstr) : M (option Document) := fun w =>
  let w' := log_event (EvDbFind o) w in
  match w_db_fault w with
  | Some e => (Err e, w')
  | None => (Ok (find_doc (w_db w) o), w')
  end.

(** [order: { createdAt: 'DESC' }]: most recent first. *)
Fixpoint insert_desc (d : Document) (l : list Document) : list Document :=
  match l with
  | [] => [d]
  | h :: t => if (createdAt h <=? createdAt d)%N then d :: h :: t else h :: insert_desc d t
  end.

Definition sort_desc (l : list Document) : list Document := fold_right insert_desc [] l.

Definition repo_find_desc : M (list Document) := fun w =>
  let w' := log_event EvDbFindAll w in
  match w_db_fault w with
  | Some e => (Err e, w')
  | None => (Ok (sort_desc (w_db w)), w')
  end.

Definition repo_delete (o : jsstr) : M unit := fun w =>
  let w' := log_event (EvDbDelete o) w in
  match w_db_fault w with
  | Some e => (Err e, w')
  | None => (Ok tt, with_db (drop_id o (w_db w)) (w_next_oid w) w')
  end.

(** ** S3Service *)

Definition uploadFile (key : jsstr) (body : bytes) : M jsstr := fun w =>
  let w' := log_event (EvS3Put key) w in
  match w_s3_fault w with
  | Some e => (Err (lit "Failed to upload file to S3: " ++ e), w')
  | None => (Ok key, with_s3 (put_key key body (w_s3 w)) w')
  end.

Definition deleteFile (key : jsstr) : M unit := fun w =>
  let w' := log_event (EvS3Delete key) w in
  match w_s3_fault w with
  | Some e => (Err (lit "Failed to delete file from S3: " ++ e), w')
  | None => (Ok tt, with_s3 (remove_key key (w_s3 w)) w')
  end.

(** [/[^a-zA-Z0-9.-]/]: the characters kept by [generateS3Key]. *)
Definition key_char_allowed (c : N) : bool :=
  (((65 <=? c) && (c <=? 90)) || ((97 <=? c) && (c <=? 122))
   || ((48 <=? c) && (c <=? 57)) || (c =? 46) || (c =? 45))%N.

(** [originalName.replace(/[^a-zA-Z0-9.-]/g, '_')]: the regex has no [u]
    flag, so it runs over code units. *)
Definition sanitize (originalName : jsstr) : jsstr :=
  map (fun c => if key_char_allowed c then c else 95%N) originalName.

(** [Date.now()] is [w_now]; [w_random] is the string
    [Math.random().toString(36).substring(2, 15)]. *)
Definition generateS3Key (originalName : jsstr) : M jsstr := fun w =>
  (Ok (lit "documents/" ++ dec_string (w_now w) ++ lit "-" ++ w_random w ++ lit "-"
       ++ sanitize originalName), w).

(** ** DocumentService *)

Definition not_found_msg : jsstr := lit "Document not found".

Definition no_location_msg : jsstr :=
  lit "Document has no valid storage location (s3Key, buffer, or path)".

Definition createDocument (cfg : BaseConfig) (nm : jsstr) (path : option jsstr)
    (fileBuffer : option bytes) : M Document :=
  let document := set_name nm new_Document in
  if isS3Storage cfg then
    buffer <- match fileBuffer with
              | Some b => ret b
              | None =>
                  match js_truthy_str path with
                  | Some p => fs_readFile p
                  | None => throw (lit "Either path or fileBuffer must be provided for S3 storage")
                  end
              end ;;
    key <- generateS3Key nm ;;
    uploadFile key buffer ;;;
    repo_save (set_s3Key key document)
  else if isMongoDBStorage cfg then
    document' <- match fileBuffer with
                 | Some b => ret (set_buffer b document)
                 | None =>
                     match js_truthy_str path with
                     | Some p => content <- fs_readFile p ;; ret (set_buffer content document)
                     | None => throw (lit "Either path or fileBuffer must be provided for MongoDB storage")
                     end
                 end ;;
    repo_save document'
  else
    match js_truthy_str path with
    | None => throw (lit "Path must be provided for filesystem storage")
    | Some p => repo_save (set_path p document)
    end.

(** [getDocumentById] swallows every error, the BSONError of a malformed id
    included, into [null]. *)
Definition getDocumentById (id : jsstr) : M (option Document) :=
  try_catch
    (match parse_objectid id with
     | None => throw bson_error_msg
     | Some o => repo_findOneBy o
     end)
    (fun _ => ret None).

Definition getAllDocuments : M (list Document) := repo_find_desc.

Definition deleteDocument (cfg : BaseConfig) (id : jsstr) : M unit :=
  document <- getDocumentById id ;;
  match document with
  | None => throw not_found_msg
  | Some document =>
      try_catch
        (match (if isS3Storage cfg then js_truthy_str (s3Key document) else None) with
         | Some k => deleteFile k
         | None =>
             if isMongoDBStorage cfg then ret tt
             else match js_truthy_str (path document) with
                  | Some p => try_catch (fs_unlink p) (fun _ => ret tt)
                  | None => ret tt
                  end
         end ;;;
         repo_delete (doc_id document))
        (fun m => throw (lit "Failed to delete document: " ++ m))
  end.

(** The reading side depends on how bytes are decoded as UTF-8
    ([Buffer#toString('utf-8')], [fs.readFile(p, 'utf-8')]); the decoder is
    a parameter of the development. *)
Section Reading.

Variable utf8_decode : bytes -> jsstr.

Definition downloadFile (key : jsstr) : M jsstr := fun w =>
  let w' := log_event (EvS3Get key) w in
  match w_s3_fault w with
  | Some e => (Err (lit "Failed to download file from S3: " ++ e), w')
  | None =>
      match lookup key (w_s3 w) with
      | Some b => (Ok (utf8_decode b), w')
      | None => (Err (lit "Failed to download file from S3: The specified key does not exist."), w')
      end
  end.

Definition getDocumentContent (cfg : BaseConfig) (id : jsstr) : M (Document * jsstr) :=
  document <- getDocumentById id ;;
  match document with
  | None => throw not_found_msg
  | Some document =>
      try_catch
        (content <-
           match (if isS3Storage cfg then js_truthy_str (s3Key document) else None) with
           | Some k => downloadFile k
           | None =>
               match (if isMongoDBStorage cfg then buffer document else None) with
               | Some b => ret (utf8_decode b)
               | None =>
                   match js_truthy_str (path document) with
                   | Some p => b <- fs_readFile p ;; ret (utf8_decode b)
                   | None => throw no_location_msg
                   end
               end
           end ;;
         ret (document, content))
        (fun m => throw (lit "Failed to read document content: " ++ m))
  end.

End Reading.

(** ** A concrete deployment *)

(** Decodes each byte as the code unit of the same value: this agrees with
    UTF-8 on ASCII input, which is all the concrete runs below use. *)
Definition ascii_decode (b : bytes) : jsstr := map (fun x => N.of_nat (Byte.to_nat x)) b.

Definition cfg_fs : BaseConfig := mkBaseConfig (lit "filesystem").
Definition cfg_mongo : BaseConfig := mkBaseConfig (lit "mongodb").
Definition cfg_s3 : BaseConfig := mkBaseConfig (lit "s3").

Definition hello : bytes := list_byte_of_string "hello".
Definition note_path : jsstr := lit "/tmp/note.txt".

Definition world0 : World :=
  mkWorld [(note_path, hello)] [] [] None [] None 1700000000000 (lit "4fzyo82mvyr") 1 [].

Definition doc_of (r : result Document * World) : Document :=
  match fst r with Ok d => d | Err _ => new_Document end.

(** ** Specification-side predicates *)

(** The content a caller supplies to [createDocument], as each backend
    requires it: a truthy path naming a file that holds [B] (file system),
    or a buffer [B], or no buffer and such a path (S3, MongoDB). *)
Definition supplies (b : Backend) (fs : list (jsstr * bytes)) (path : option jsstr)
    (fileBuffer : option bytes) (B : bytes) : Prop :=
  match b with
  | Filesystem => exists p, js_truthy_str path = Some p /\ lookup p fs = Some B
  | _ => fileBuffer = Some B
         \/ (fileBuffer = None /\ exists p, js_truthy_str path = Some p /\ lookup p fs = Some B)
  end.

(** The locator fields a record carries for the backend that wrote it. *)
Definition locator_matches (b : Backend) (d : Document) : Prop :=
  match b with
  | ObjectStorage => s3Key d <> None /\ buffer d = None /\ path d = None
  | EmbeddedBlob => buffer d <> None /\ s3Key d = None /\ path d = None
  | Filesystem => path d <> None /\ s3Key d = None /\ buffer d = None
  end.

(** ** Basic facts *)

Lemma jseqb_refl (a : jsstr) : jseqb a a = true.
Proof. unfold jseqb; destruct (list_eq_dec N.eq_dec a a); congruence. Qed.

Lemma jseqb_true (a b : jsstr) : jseqb a b = true -> a = b.
Proof. unfold jseqb; destruct (list_eq_dec N.eq_dec a b); congruence. Qed.

Lemma jseqb_false (a b : jsstr) : a <> b -> jseqb a b = false.
Proof. unfold jseqb; destruct (list_eq_dec N.eq_dec a b); congruence. Qed.

Lemma hex_char_ok (d : N) :
  (d < 16)%N -> is_hex (hex_char d) = true /\ to_lower (hex_char d) = hex_char d.
Proof.
  intro Hd.
  assert (d = 0 \/ d = 1 \/ d = 2 \/ d = 3 \/ d = 4 \/ d = 5 \/ d = 6 \/ d = 7
          \/ d = 8 \/ d = 9 \/ d = 10 \/ d = 11 \/ d = 12 \/ d = 13 \/ d = 14
          \/ d = 15)%N as Hc by lia.
  repeat destruct Hc as [-> | Hc]; subst; split; reflexivity.
Qed.

Lemma hex_digits_ok (k : nat) (n : N) :
  List.length (hex_digits k n) = k
  /\ Forall (fun c => is_hex c = true /\ to_lower c = c) (hex_digits k n).
Proof.
  revert n; induction k as [|k IH]; intro n; simpl.
  - split; [reflexivity | constructor].
  - destruct (IH (n / 16)%N) as [Hl Hf].
    rewrite length_app; simpl; split; [lia|].
    apply Forall_app; split; [exact Hf|].
    constructor; [apply hex_char_ok, N.mod_lt; lia | constructor].
Qed.

Lemma map_to_lower_id (l : jsstr) :
  Forall (fun c => is_hex c = true /\ to_lower c = c) l -> map to_lower l = l.
Proof.
  induction 1 as [|c l [_ Hc] _ IH]; simpl; [reflexivity|]. now rewrite Hc, IH.
Qed.

Lemma forallb_hex (l : jsstr) :
  Forall (fun c => is_hex c = true /\ to_lower c = c) l -> forallb is_hex l = true.
Proof.
  induction 1 as [|c l [Hc _] _ IH]; simpl; [reflexivity|]. now rewrite Hc, IH.
Qed.

(** Every ObjectId the store generates reads back through [new ObjectId]. *)
Lemma parse_hex24 (n : N) : parse_objectid (hex24 n) = Some (hex24 n).
Proof.
  unfold parse_objectid, hex24.
  destruct (hex_digits_ok 24 n) as [Hl Hf].
  rewrite Hl, (forallb_hex _ Hf), (map_to_lower_id _ Hf). reflexivity.
Qed.

Lemma hex24_nonempty (n : N) : exists c cs, hex24 n = c :: cs.
Proof.
  destruct (hex_digits_ok 24 n) as [Hl _]. unfold hex24 in *.
  destruct (hex_digits 24 n) as [|c cs]; [discriminate | eauto].
Qed.

Lemma lookup_put {A} (k : jsstr) (v : A) (l : list (jsstr * A)) :
  lookup k (put_key k v l) = Some v.
Proof. unfold put_key; simpl; now rewrite jseqb_refl. Qed.

Lemma lookup_remove {A} (k : jsstr) (l : list (jsstr * A)) :
  lookup k (remove_key k l) = None.
Proof.
  induction l as [|[k' v] l IH]; simpl; [reflexivity|].
  destruct (jseqb k' k) eqn:E; simpl; [exact IH|]. now rewrite E.
Qed.

Lemma find_drop_id (db : list Document) (o : jsstr) : find_doc (drop_id o db) o = None.
Proof.
  unfold find_doc, drop_id; induction db as [|x db IH]; simpl; [reflexivity|].
  destruct (jseqb (doc_id x) o) eqn:E; simpl; [exact IH|]. now rewrite E.
Qed.

Lemma find_doc_fresh (d : Document) (db : list Document) :
  find_doc (d :: db) (doc_id d) = Some d.
Proof. unfold find_doc; simpl; now rewrite jseqb_refl. Qed.

(** A document just saved is what [getDocumentById] finds for its id. *)
Lemma repo_save_spec (x d : Document) (w w1 : World) :
  repo_save x w = (Ok d, w1) ->
  d = mkDocument (hex24 (w_next_oid w)) (name x) (path x) (buffer x) (s3Key x) (w_now w) (w_now w)
  /\ w_db w1 = d :: drop_id (doc_id d) (w_db w)
  /\ w_log w1 = EvDbSave (doc_id d) :: w_log w
  /\ w_db_fault w1 = None /\ w_fs w1 = w_fs w /\ w_s3 w1 = w_s3 w
  /\ w_s3_fault w1 = w_s3_fault w.
Proof.
  unfold repo_save; destruct (w_db_fault w) eqn:E; intro H; inversion H; subst; clear H.
  simpl; repeat split; auto.
Qed.

Lemma getDocumentById_saved (d : Document) (w : World) (n : N) :
  doc_id d = hex24 n -> w_db_fault w = None -> hd_error (w_db w) = Some d ->
  getDocumentById (doc_id d) w = (Ok (Some d), log_event (EvDbFind (doc_id d)) w).
Proof.
  intros Hid Hf Hhd. unfold getDocumentById, try_catch, repo_findOneBy.
  rewrite Hid, parse_hex24, <- Hid, Hf.
  destruct (w_db w) as [|x db]; simpl in Hhd; inversion Hhd; subst.
  now rewrite find_doc_fresh.
Qed.

(** Where the bytes of a new document come from when a buffer may stand in
    for the path: the buffer if given, else the file at the truthy path. *)
Definition provided (fs : list (jsstr * bytes)) (path : option jsstr)
    (fileBuffer : option bytes) (b : bytes) : Prop :=
  match fileBuffer with
  | Some b' => b' = b
  | None => exists p, js_truthy_str path = Some p /\ lookup p fs = Some b
  end.

Lemma bind_inv {A B} (m : M A) (k : A -> M B) (w : World) (b : B) (w1 : World) :
  bind m k w = (Ok b, w1) -> exists a w0, m w = (Ok a, w0) /\ k a w0 = (Ok b, w1).
Proof.
  unfold bind; destruct (m w) as [[a|e] w0]; intro H; [eauto | discriminate].
Qed.

Lemma bind_ok {A B} (m : M A) (k : A -> M B) (w : World) (a : A) (w0 : World) :
  m w = (Ok a, w0) -> bind m k w = k a w0.
Proof. unfold bind; intros ->; reflexivity. Qed.

Lemma ret_inv {A} (a b : A) (w w1 : World) : ret a w = (Ok b, w1) -> a = b /\ w1 = w.
Proof. unfold ret; intro H; inversion H; auto. Qed.

Lemma throw_inv {A} (msg : jsstr) (w w1 : World) (b : A) : throw msg w = (Ok b, w1) -> False.
Proof. unfold throw; discriminate. Qed.

Lemma fs_readFile_inv (p : jsstr) (w : World) (b : bytes) (w1 : World) :
  fs_readFile p w = (Ok b, w1) ->
  lookup p (w_fs w) = Some b /\ w1 = log_event (EvReadFile p) w.
Proof.
  unfold fs_readFile; destruct (lookup p (w_fs w)); intro H; inversion H; auto.
Qed.

Ltac proj := cbn [doc_id name path buffer s3Key createdAt updatedAt set_s3Key set_name
  set_buffer set_path new_Document w_fs w_unlink_denied w_s3 w_s3_fault w_db w_db_fault
  w_now w_random w_next_oid w_log log_event with_fs with_s3 with_db hd_error] in *.

(** What a successful [createDocument] has done, per backend. *)
Lemma createDocument_ok (cfg : BaseConfig) (nm : jsstr) (path0 : option jsstr)
    (fb : option bytes) (w : World) (d : Document) (w1 : World) :
  createDocument cfg nm path0 fb w = (Ok d, w1) ->
  doc_id d = hex24 (w_next_oid w) /\ hd_error (w_db w1) = Some d
  /\ w_db_fault w1 = None /\ w_fs w1 = w_fs w /\ name d = nm
  /\ match active_backend cfg with
     | ObjectStorage =>
         exists k b, s3Key d = Some k /\ js_truthy_str (Some k) = Some k
         /\ buffer d = None /\ path d = None
         /\ lookup k (w_s3 w1) = Some b /\ w_s3_fault w1 = None
         /\ provided (w_fs w) path0 fb b
     | EmbeddedBlob =>
         exists b, buffer d = Some b /\ s3Key d = None /\ path d = None
         /\ provided (w_fs w) path0 fb b
     | Filesystem =>
         exists p, js_truthy_str path0 = Some p /\ path d = Some p
         /\ s3Key d = None /\ buffer d = None
         /\ w_log w1 = EvDbSave (doc_id d) :: w_log w
     end.
Proof.
  unfold createDocument, active_backend.
  destruct (isS3Storage cfg) eqn:Hs3; [|destruct (isMongoDBStorage cfg) eqn:Hm].
  - (* S3 *)
    intro H.
    apply bind_inv in H as (b & w0 & Hb & H).
    assert (Hw0 : provided (w_fs w) path0 fb b /\ w_fs w0 = w_fs w
                  /\ w_next_oid w0 = w_next_oid w).
    { destruct fb as [b'|].
      - apply ret_inv in Hb as [-> ->]. repeat split; reflexivity.
      - destruct (js_truthy_str path0) as [p|] eqn:Hp; [|now apply throw_inv in Hb].
        apply fs_readFile_inv in Hb as [Hl ->].
        split; [exists p; auto | split; reflexivity]. }
    destruct Hw0 as (Hprov & Hfs & Hnext).
    apply bind_inv in H as (key & w0' & Hk & H).
    unfold generateS3Key in Hk; inversion Hk; subst w0'; clear Hk.
    apply bind_inv in H as (u & w0'' & Hu & H).
    unfold uploadFile in Hu; destruct (w_s3_fault w0) eqn:Hf; inversion Hu; subst w0''; clear Hu.
    apply repo_save_spec in H.
    destruct H as (-> & Hdb1 & Hlog1 & Hdbf1 & Hfs1 & Hs31 & Hs3f1). proj.
    rewrite Hdb1, Hfs1, Hs31, Hs3f1. proj. rewrite Hfs, Hnext, Hf.
    repeat split; try reflexivity; try assumption.
    eexists; exists b.
    split; [reflexivity|]. split; [subst; reflexivity|].
    split; [reflexivity|]. split; [reflexivity|].
    split; [subst; apply lookup_put|]. split; [reflexivity|]. assumption.
  - (* MongoDB *)
    intro H.
    apply bind_inv in H as (d0 & w0 & Hb & H).
    assert (Hw0 : exists b, d0 = set_buffer b (set_name nm new_Document)
                  /\ provided (w_fs w) path0 fb b /\ w_fs w0 = w_fs w
                  /\ w_next_oid w0 = w_next_oid w).
    { destruct fb as [b'|].
      - apply ret_inv in Hb as [<- ->]. exists b'; repeat split; reflexivity.
      - destruct (js_truthy_str path0) as [p|] eqn:Hp; [|now apply throw_inv in Hb].
        apply bind_inv in Hb as (b & w2 & Hr & Hb).
        apply fs_readFile_inv in Hr as [Hl ->].
        apply ret_inv in Hb as [<- ->].
        exists b; split; [reflexivity | split; [exists p; auto | split; reflexivity]]. }
    destruct Hw0 as (b & -> & Hprov & Hfs & Hnext).
    apply repo_save_spec in H.
    destruct H as (-> & Hdb1 & Hlog1 & Hdbf1 & Hfs1 & Hs31 & Hs3f1). proj.
    rewrite Hdb1, Hfs1, Hfs, Hnext. proj.
    repeat split; try reflexivity; try assumption.
    exists b; repeat split; try discriminate; try reflexivity; try assumption.
  - (* file system *)
    destruct (js_truthy_str path0) as [p|] eqn:Hp; [|intro H; now apply throw_inv in H].
    intro H. apply repo_save_spec in H.
    destruct H as (-> & Hdb1 & Hlog1 & Hdbf1 & Hfs1 & Hs31 & Hs3f1). proj.
    rewrite Hdb1, Hfs1, Hlog1. proj.
    repeat split; try reflexivity; try assumption.
    exists p; repeat split; try discriminate; try reflexivity; try assumption.
Qed.

Lemma js_truthy_some (o : option jsstr) (p : jsstr) :
  js_truthy_str o = Some p -> o = Some p /\ js_truthy_str (Some p) = Some p.
Proof. destruct o as [[|c cs]|]; simpl; intro H; inversion H; auto. Qed.

Lemma provided_unique (fs : list (jsstr * bytes)) (path0 : option jsstr)
    (fb : option bytes) (b B : bytes) :
  fb = Some B \/ (fb = None /\ exists p, js_truthy_str path0 = Some p /\ lookup p fs = Some B) ->
  provided fs path0 fb b -> b = B.
Proof.
  unfold provided; intros [-> | [-> (p & Hp & Hl)]]; [congruence|].
  intros (p' & Hp' & Hl'). congruence.
Qed.

Lemma isS3_not_mongo (cfg : BaseConfig) :
  isS3Storage cfg = true -> isMongoDBStorage cfg = false.
Proof.
  unfold isS3Storage, isMongoDBStorage; intro H. apply jseqb_true in H.
  rewrite H. reflexivity.
Qed.

Ltac mreduce := unfold try_catch, bind, ret, throw in *; proj.

(** ** C1: create then read returns the supplied bytes *)

(** C1. For each backend, when the caller supplies the content the backend
    requires (a path to a file holding [B], or a buffer [B]) and
    [createDocument] succeeds with record [d], reading the content of
    [d]'s id under the same configuration succeeds and yields [d] and [B]
    decoded as UTF-8. *)
Theorem createDocument_getDocumentContent_roundtrip (utf8_decode : bytes -> jsstr)
    (cfg : BaseConfig) (w : World) (nm : jsstr) (path0 : option jsstr)
    (fileBuffer : option bytes) (B : bytes) (d : Document) (w1 : World)
    (Hsup : supplies (active_backend cfg) (w_fs w) path0 fileBuffer B)
    (Hcreate : createDocument cfg nm path0 fileBuffer w = (Ok d, w1)) :
  exists w2, getDocumentContent utf8_decode cfg (doc_id d) w1 = (Ok (d, utf8_decode B), w2).
Proof.
  destruct (createDocument_ok _ _ _ _ _ _ _ Hcreate) as (Hid & Hhd & Hdbf & Hfs & _ & Hloc).
  unfold getDocumentContent.
  rewrite (bind_ok _ _ _ _ _ (getDocumentById_saved d w1 _ Hid Hdbf Hhd)).
  unfold active_backend in *.
  destruct (isS3Storage cfg) eqn:Hs3; [|destruct (isMongoDBStorage cfg) eqn:Hm].
  - destruct Hloc as (k & b & Hk & Htk & _ & _ & Hl & Hf & Hprov).
    rewrite (provided_unique _ _ _ _ _ Hsup Hprov) in Hl.
    mreduce. rewrite Hk, Htk. unfold downloadFile. proj. rewrite Hf, Hl. eauto.
  - destruct Hloc as (b & Hb & Hk & _ & Hprov).
    rewrite (provided_unique _ _ _ _ _ Hsup Hprov) in Hb.
    mreduce. rewrite Hb. eauto.
  - destruct Hloc as (p & Hp & Hpd & _ & _ & _).
    destruct Hsup as (p' & Hp' & Hl). rewrite Hp in Hp'; inversion Hp'; subst p'.
    destruct (js_truthy_some _ _ Hp) as [_ Htp].
    mreduce. rewrite Hpd, Htp. unfold fs_readFile. proj. rewrite Hfs, Hl. eauto.
Qed.

Lemma createDocument_getDocumentContent_roundtrip_witness :
  let r := createDocument cfg_fs (lit "note.txt") (Some note_path) None world0 in
  supplies (active_backend cfg_fs) (w_fs world0) (Some note_path) None hello
  /\ r = (Ok (doc_of r), snd r)
  /\ exists w2, getDocumentContent ascii_decode cfg_fs (doc_id (doc_of r)) (snd r)
                = (Ok (doc_of r, lit "hello"), w2).
Proof.
  intro r.
  assert (Hs : supplies (active_backend cfg_fs) (w_fs world0) (Some note_path) None hello)
    by (exists note_path; split; reflexivity).
  assert (Hc : r = (Ok (doc_of r), snd r)) by (vm_compute; reflexivity).
  split; [exact Hs|]. split; [exact Hc|].
  exact (createDocument_getDocumentContent_roundtrip ascii_decode cfg_fs world0
           (lit "note.txt") (Some note_path) None hello (doc_of r) (snd r) Hs Hc).
Defined.

(** ** Deletion *)

Lemma getDocumentById_found (id o : jsstr) (w : World) (d : Document) :
  parse_objectid id = Some o -> w_db_fault w = None -> find_doc (w_db w) o = Some d ->
  getDocumentById id w = (Ok (Some d), log_event (EvDbFind o) w).
Proof.
  intros Hp Hf Hd. unfold getDocumentById, try_catch, repo_findOneBy.
  rewrite Hp, Hf, Hd. reflexivity.
Qed.

Lemma getDocumentContent_absent (utf8_decode : bytes -> jsstr) (cfg : BaseConfig)
    (id o : jsstr) (w : World) :
  parse_objectid id = Some o -> w_db_fault w = None -> find_doc (w_db w) o = None ->
  getDocumentContent utf8_decode cfg id w = (Err not_found_msg, log_event (EvDbFind o) w).
Proof.
  intros Hp Hf Hd. unfold getDocumentContent, getDocumentById, repo_findOneBy.
  mreduce. rewrite Hp, Hf, Hd. reflexivity.
Qed.

(** C2. Under the S3 backend, deleting a record whose [s3Key] is set is
    atomic with respect to the remote delete: when the bucket call fails,
    [deleteDocument] fails with ["Failed to delete document: ..."] wrapping
    the S3 failure, and neither the collection nor the bucket has changed;
    when the bucket and the database calls succeed, [deleteDocument]
    succeeds, the object is gone from the bucket, the record is gone from
    the collection, and reading the id afterwards fails with
    ["Document not found"]. *)
Theorem deleteDocument_s3_atomic (cfg : BaseConfig) (w : World) (id o k : jsstr)
    (d : Document)
    (Hcfg : active_backend cfg = ObjectStorage)
    (Hparse : parse_objectid id = Some o) (Hdbf : w_db_fault w = None)
    (Hfind : find_doc (w_db w) o = Some d) (Hk : js_truthy_str (s3Key d) = Some k) :
  (forall e, w_s3_fault w = Some e ->
     exists w', deleteDocument cfg id w
                = (Err (lit "Failed to delete document: " ++ lit "Failed to delete file from S3: " ++ e), w')
     /\ w_db w' = w_db w /\ w_s3 w' = w_s3 w)
  /\ (w_s3_fault w = None ->
     exists w', deleteDocument cfg id w = (Ok tt, w')
     /\ lookup k (w_s3 w') = None /\ find_doc (w_db w') o = None
     /\ forall utf8_decode,
          fst (getDocumentContent utf8_decode cfg id w') = Err not_found_msg).
Proof.
  unfold active_backend in Hcfg.
  destruct (isS3Storage cfg) eqn:Hs3;
    [|destruct (isMongoDBStorage cfg); discriminate].
  unfold deleteDocument.
  rewrite (bind_ok _ _ _ _ _ (getDocumentById_found id o w d Hparse Hdbf Hfind)).
  split.
  - intros e He. mreduce. rewrite Hs3, Hk. unfold deleteFile. proj. rewrite He.
    eexists; split; [reflexivity | split; reflexivity].
  - intros He. mreduce. rewrite Hs3, Hk. unfold deleteFile. proj. rewrite He.
    unfold repo_delete. proj. rewrite Hdbf.
    pose proof (find_some _ _ Hfind) as [_ Hid]. apply jseqb_true in Hid. rewrite Hid.
    eexists; split; [reflexivity|]. proj.
    split; [apply lookup_remove|]. split; [apply find_drop_id|].
    intro dec. rewrite (getDocumentContent_absent dec cfg id o _ Hparse); proj;
      [reflexivity | exact Hdbf | apply find_drop_id].
Qed.

Definition s3_key0 : jsstr := lit "documents/1700000000000-4fzyo82mvyr-note.txt".
Definition doc_s3 : Document := mkDocument (hex24 1) (lit "note.txt") None None (Some s3_key0) 5 5.
Definition world_s3 (fault : option jsstr) : World :=
  mkWorld [] [] [(s3_key0, hello)] fault [doc_s3] None 1700000000000 (lit "4fzyo82mvyr") 2 [].

Lemma deleteDocument_s3_atomic_witness :
  active_backend cfg_s3 = ObjectStorage
  /\ parse_objectid (hex24 1) = Some (hex24 1)
  /\ find_doc (w_db (world_s3 (Some (lit "socket hang up")))) (hex24 1) = Some doc_s3
  /\ exists w', deleteDocument cfg_s3 (hex24 1) (world_s3 (Some (lit "socket hang up")))
                = (Err (lit "Failed to delete document: " ++ lit "Failed to delete file from S3: "
                        ++ lit "socket hang up"), w')
                /\ w_db w' = [doc_s3].
Proof.
  split; [reflexivity|]. split; [vm_compute; reflexivity|].
  split; [vm_compute; reflexivity|].
  destruct (deleteDocument_s3_atomic cfg_s3 (world_s3 (Some (lit "socket hang up")))
              (hex24 1) (hex24 1) s3_key0 doc_s3 eq_refl
              ltac:(vm_compute; reflexivity) eq_refl ltac:(vm_compute; reflexivity) eq_refl)
    as [Hfail _].
  destruct (Hfail _ eq_refl) as (w' & Hd & Hdb & _).
  exists w'; split; [exact Hd | exact Hdb].
Defined.

(** C3. Under the file system backend, deleting a record whose [path] is
    set goes through even when [fs.unlink] fails (the file is absent, or
    may not be removed): [deleteDocument] succeeds, the record is gone from
    the collection, and reading the id afterwards fails with
    ["Document not found"]. *)
Theorem deleteDocument_fs_best_effort (cfg : BaseConfig) (w : World) (id o p : jsstr)
    (d : Document)
    (Hcfg : active_backend cfg = Filesystem)
    (Hparse : parse_objectid id = Some o) (Hdbf : w_db_fault w = None)
    (Hfind : find_doc (w_db w) o = Some d) (Hp : js_truthy_str (path d) = Some p)
    (Hunlink : exists e, fst (fs_unlink p w) = Err e) :
  exists w', deleteDocument cfg id w = (Ok tt, w')
  /\ find_doc (w_db w') o = None
  /\ forall utf8_decode, fst (getDocumentContent utf8_decode cfg id w') = Err not_found_msg.
Proof.
  unfold active_backend in Hcfg.
  destruct (isS3Storage cfg) eqn:Hs3; [discriminate|].
  destruct (isMongoDBStorage cfg) eqn:Hm; [discriminate|].
  unfold deleteDocument.
  rewrite (bind_ok _ _ _ _ _ (getDocumentById_found id o w d Hparse Hdbf Hfind)).
  destruct Hunlink as [e He].
  mreduce. rewrite Hs3, Hm, Hp.
  unfold fs_unlink in *. proj.
  destruct (existsb (jseqb p) (w_unlink_denied w));
    [|destruct (lookup p (w_fs w)); [discriminate|]]; cbn [fst] in He;
    unfold repo_delete; proj; rewrite Hdbf;
    pose proof (find_some _ _ Hfind) as [_ Hid]; apply jseqb_true in Hid; rewrite Hid;
    (eexists; split; [reflexivity|]); proj;
    (split; [apply find_drop_id|]);
    intro dec; rewrite (getDocumentContent_absent dec cfg id o _ Hparse); proj;
      first [reflexivity | exact Hdbf | apply find_drop_id].
Qed.

Definition doc_fs : Document := mkDocument (hex24 1) (lit "gone.txt") (Some (lit "/tmp/gone.txt")) None None 5 5.
Definition world_fs : World :=
  mkWorld [(note_path, hello)] [] [] None [doc_fs] None 1700000000000 (lit "4fzyo82mvyr") 2 [].

Lemma deleteDocument_fs_best_effort_witness :
  active_backend cfg_fs = Filesystem
  /\ parse_objectid (hex24 1) = Some (hex24 1)
  /\ find_doc (w_db world_fs) (hex24 1) = Some doc_fs
  /\ (exists e, fst (fs_unlink (lit "/tmp/gone.txt") world_fs) = Err e)
  /\ exists w', deleteDocument cfg_fs (hex24 1) world_fs = (Ok tt, w')
                /\ find_doc (w_db w') (hex24 1) = None.
Proof.
  assert (Hu : exists e, fst (fs_unlink (lit "/tmp/gone.txt") world_fs) = Err e)
    by (eexists; vm_compute; reflexivity).
  split; [reflexivity|]. split; [vm_compute; reflexivity|].
  split; [vm_compute; reflexivity|]. split; [exact Hu|].
  destruct (deleteDocument_fs_best_effort cfg_fs world_fs (hex24 1) (hex24 1)
              (lit "/tmp/gone.txt") doc_fs eq_refl ltac:(vm_compute; reflexivity) eq_refl
              ltac:(vm_compute; reflexivity) eq_refl Hu) as (w' & Hd & Hf & _).
  exists w'; split; assumption.
Defined.

(** ** C4: the locator of a new record *)

(** C4. A record created by a successful [createDocument] carries exactly
    one locator, the one of the backend active at creation: [s3Key] under
    S3, [buffer] under MongoDB, [path] under the file system. *)
Theorem createDocument_locator (cfg : BaseConfig) (nm : jsstr) (path0 : option jsstr)
    (fileBuffer : option bytes) (w : World) (d : Document) (w1 : World)
    (Hcreate : createDocument cfg nm path0 fileBuffer w = (Ok d, w1)) :
  locator_matches (active_backend cfg) d.
Proof.
  destruct (createDocument_ok _ _ _ _ _ _ _ Hcreate) as (_ & _ & _ & _ & _ & Hloc).
  unfold locator_matches.
  destruct (active_backend cfg).
  - destruct Hloc as (p & _ & Hp & Hk & Hb & _). rewrite Hp; repeat split; congruence.
  - destruct Hloc as (b & Hb & Hk & Hp & _). rewrite Hb; repeat split; congruence.
  - destruct Hloc as (k & b & Hk & _ & Hb & Hp & _). rewrite Hk; repeat split; congruence.
Qed.

Lemma createDocument_locator_witness :
  let r := createDocument cfg_mongo (lit "hello.txt") None (Some hello) world0 in
  r = (Ok (doc_of r), snd r) /\ locator_matches (active_backend cfg_mongo) (doc_of r).
Proof.
  intro r.
  assert (Hc : r = (Ok (doc_of r), snd r)) by (vm_compute; reflexivity).
  split; [exact Hc|].
  exact (createDocument_locator cfg_mongo (lit "hello.txt") None (Some hello) world0
           (doc_of r) (snd r) Hc).
Defined.

(** ** C5: reading after a change of backend *)

Definition content_read_failed (m : jsstr) : jsstr := lit "Failed to read document content: " ++ m.

(** C5 (as stated, refuted). A document created under the file system
    backend is still read after the deployment switches to S3: the [path]
    fallback of [getDocumentContent] is not gated on the active backend. *)
Lemma backend_switch_fs_record_still_readable :
  let r := createDocument cfg_fs (lit "note.txt") (Some note_path) None world0 in
  active_backend cfg_s3 <> active_backend cfg_fs
  /\ r = (Ok (doc_of r), snd r)
  /\ fst (getDocumentContent ascii_decode cfg_s3 (doc_id (doc_of r)) (snd r))
     = Ok (doc_of r, lit "hello").
Proof.
  intro r. split; [discriminate|]. split; vm_compute; reflexivity.
Qed.

(** C5 (amended). After a change of backend, a record created under S3 or
    under MongoDB can no longer be read: [getDocumentContent] fails with
    the no-valid-location error, wrapped as a content-read failure. A
    record created under the file system backend reads exactly as it did
    before the change. *)
Theorem getDocumentContent_after_backend_switch (utf8_decode : bytes -> jsstr)
    (cfg0 cfg1 : BaseConfig) (w : World) (nm : jsstr) (path0 : option jsstr)
    (fileBuffer : option bytes) (d : Document) (w1 : World)
    (Hcreate : createDocument cfg0 nm path0 fileBuffer w = (Ok d, w1))
    (Hswitch : active_backend cfg1 <> active_backend cfg0) :
  (active_backend cfg0 <> Filesystem ->
     exists w2, getDocumentContent utf8_decode cfg1 (doc_id d) w1
                = (Err (content_read_failed no_location_msg), w2))
  /\ (active_backend cfg0 = Filesystem ->
     getDocumentContent utf8_decode cfg1 (doc_id d) w1
     = getDocumentContent utf8_decode cfg0 (doc_id d) w1).
Proof.
  destruct (createDocument_ok _ _ _ _ _ _ _ Hcreate) as (Hid & Hhd & Hdbf & _ & _ & Hloc).
  pose proof (getDocumentById_saved d w1 _ Hid Hdbf Hhd) as Hget.
  unfold getDocumentContent, content_read_failed.
  rewrite !(bind_ok _ _ _ _ _ Hget).
  unfold active_backend in *.
  destruct (isS3Storage cfg0) eqn:Hs0; [|destruct (isMongoDBStorage cfg0) eqn:Hm0].
  - (* created under S3 *)
    destruct Hloc as (k & b & _ & _ & Hb & Hp & _).
    split; [intros _ | intro H0; discriminate].
    destruct (isS3Storage cfg1); [exfalso; apply Hswitch; reflexivity|].
    destruct (isMongoDBStorage cfg1); mreduce; rewrite ?Hb, ?Hp; eexists; cbn [js_truthy_str]; reflexivity.
  - (* created under MongoDB *)
    destruct Hloc as (b & _ & Hk & Hp & _).
    split; [intros _ | intro H0; discriminate].
    destruct (isS3Storage cfg1) eqn:Hs1;
      [rewrite (isS3_not_mongo _ Hs1)
      |destruct (isMongoDBStorage cfg1); [exfalso; apply Hswitch; reflexivity|]];
      mreduce; rewrite ?Hk, ?Hp; eexists; cbn [js_truthy_str]; reflexivity.
  - (* created under the file system *)
    destruct Hloc as (p & _ & _ & Hk & Hb & _).
    split; [intro H0; exfalso; apply H0; reflexivity | intros _].
    destruct (isS3Storage cfg1), (isMongoDBStorage cfg1); mreduce; rewrite ?Hk, ?Hb;
      reflexivity.
Qed.

Lemma getDocumentContent_after_backend_switch_witness :
  let r := createDocument cfg_s3 (lit "hello.txt") None (Some hello) world0 in
  r = (Ok (doc_of r), snd r)
  /\ active_backend cfg_fs <> active_backend cfg_s3
  /\ exists w2, getDocumentContent ascii_decode cfg_fs (doc_id (doc_of r)) (snd r)
                = (Err (content_read_failed no_location_msg), w2).
Proof.
  intro r.
  assert (Hc : r = (Ok (doc_of r), snd r)) by (vm_compute; reflexivity).
  assert (Hsw : active_backend cfg_fs <> active_backend cfg_s3) by discriminate.
  split; [exact Hc|]. split; [exact Hsw|].
  destruct (getDocumentContent_after_backend_switch ascii_decode cfg_s3 cfg_fs world0
              (lit "hello.txt") None (Some hello) (doc_of r) (snd r) Hc Hsw) as [H _].
  apply H. discriminate.
Defined.

(** ** C6: the file system backend requires a path *)

(** C6. Under the file system backend, [createDocument] with a buffer and
    no path throws ["Path must be provided for filesystem storage"] and
    leaves the world untouched: nothing read, nothing saved. A successful
    create under that backend stores the caller's path and performs no I/O
    other than the one save. *)
Theorem createDocument_fs_requires_path (cfg : BaseConfig) (w : World) (nm : jsstr)
    (b : bytes) (Hcfg : active_backend cfg = Filesystem) :
  createDocument cfg nm None (Some b) w
  = (Err (lit "Path must be provided for filesystem storage"), w)
  /\ forall path0 fileBuffer d w1,
       createDocument cfg nm path0 fileBuffer w = (Ok d, w1) ->
       exists p, js_truthy_str path0 = Some p /\ path d = Some p
       /\ w_log w1 = [EvDbSave (doc_id d)] ++ w_log w.
Proof.
  split.
  - unfold active_backend in Hcfg. unfold createDocument.
    destruct (isS3Storage cfg); [discriminate|].
    destruct (isMongoDBStorage cfg); [discriminate|]. reflexivity.
  - intros path0 fileBuffer d w1 H.
    destruct (createDocument_ok _ _ _ _ _ _ _ H) as (_ & _ & _ & _ & _ & Hloc).
    rewrite Hcfg in Hloc. destruct Hloc as (p & Hp & Hpd & _ & _ & Hlog).
    exists p; auto.
Qed.

Lemma createDocument_fs_requires_path_witness :
  active_backend cfg_fs = Filesystem
  /\ createDocument cfg_fs (lit "note.txt") None (Some hello) world0
     = (Err (lit "Path must be provided for filesystem storage"), world0).
Proof.
  split; [reflexivity|].
  exact (proj1 (createDocument_fs_requires_path cfg_fs world0 (lit "note.txt") hello eq_refl)).
Defined.

(** ** C7: reading an unknown id *)

(** No record answers to the id string: it is not an ObjectId, or no
    record of the collection has that ObjectId. *)
Definition no_record (db : list Document) (id : jsstr) : Prop :=
  match parse_objectid id with
  | None => True
  | Some o => find_doc db o = None
  end.

(** C7. When no record answers to [id], malformed ids included,
    [getDocumentContent] fails with ["Document not found"], the same error
    in both cases. *)
Theorem getDocumentContent_not_found (utf8_decode : bytes -> jsstr) (cfg : BaseConfig)
    (w : World) (id : jsstr) (Habsent : no_record (w_db w) id) :
  exists w', getDocumentContent utf8_decode cfg id w = (Err not_found_msg, w').
Proof.
  unfold no_record in Habsent. unfold getDocumentContent, getDocumentById, repo_findOneBy.
  mreduce.
  destruct (parse_objectid id) as [o|].
  - destruct (w_db_fault w); [eexists; reflexivity|]. rewrite Habsent. eexists; reflexivity.
  - eexists; reflexivity.
Qed.

Lemma getDocumentContent_not_found_witness :
  no_record (w_db world_fs) (lit "not-an-id")
  /\ no_record (w_db world_fs) (hex24 7)
  /\ (exists w', getDocumentContent ascii_decode cfg_fs (lit "not-an-id") world_fs
                 = (Err not_found_msg, w'))
  /\ (exists w', getDocumentContent ascii_decode cfg_fs (hex24 7) world_fs
                 = (Err not_found_msg, w')).
Proof.
  assert (H1 : no_record (w_db world_fs) (lit "not-an-id")) by (vm_compute; exact I).
  assert (H2 : no_record (w_db world_fs) (hex24 7)) by (vm_compute; reflexivity).
  split; [exact H1|]. split; [exact H2|]. split.
  - exact (getDocumentContent_not_found ascii_decode cfg_fs world_fs _ H1).
  - exact (getDocumentContent_not_found ascii_decode cfg_fs world_fs _ H2).
Defined.

(** ** C8: listing order *)

(** [a] comes no later than [b] in a newest-first listing. *)
Definition newer_first (a b : Document) : Prop := (createdAt b <= createdAt a)%N.

Lemma Forall_perm_transfer {A} (P : A -> Prop) (l l' : list A) :
  Permutation l l' -> Forall P l -> Forall P l'.
Proof.
  intros Hp Hf. apply Forall_forall. intros x Hx.
  rewrite Forall_forall in Hf. apply Hf. apply (Permutation_in x (Permutation_sym Hp) Hx).
Qed.

Lemma insert_desc_perm (d : Document) (l : list Document) :
  Permutation (insert_desc d l) (d :: l).
Proof.
  induction l as [|h t IH]; simpl; [reflexivity|].
  destruct (createdAt h <=? createdAt d)%N; [reflexivity|].
  eapply perm_trans; [apply perm_skip; exact IH | apply perm_swap].
Qed.

Lemma sort_desc_perm (l : list Document) : Permutation (sort_desc l) l.
Proof.
  induction l as [|x l IH]; simpl; [reflexivity|].
  eapply perm_trans; [apply insert_desc_perm | apply perm_skip; exact IH].
Qed.

Lemma insert_desc_sorted (d : Document) (l : list Document) :
  StronglySorted newer_first l -> StronglySorted newer_first (insert_desc d l).
Proof.
  induction l as [|h t IH]; simpl; intro Hs.
  - constructor; constructor.
  - apply StronglySorted_inv in Hs as [Ht Hf].
    destruct (createdAt h <=? createdAt d)%N eqn:E.
    + apply N.leb_le in E.
      constructor; [constructor; assumption|].
      constructor; [exact E|].
      apply (Forall_impl _ (fun x (Hx : newer_first h x) => N.le_trans _ _ _ Hx E) Hf).
    + apply N.leb_gt in E.
      constructor; [apply IH; exact Ht|].
      apply (Forall_perm_transfer _ (d :: t)); [symmetry; apply insert_desc_perm|].
      constructor; [unfold newer_first; lia | exact Hf].
Qed.

Lemma sort_desc_sorted (l : list Document) : StronglySorted newer_first (sort_desc l).
Proof.
  induction l as [|x l IH]; simpl; [constructor|]. apply insert_desc_sorted, IH.
Qed.

(** C8. When the database answers, [getAllDocuments] returns every stored
    record, each exactly once, most recent [createdAt] first (every record
    is listed before all the older ones); an empty collection gives the
    empty list. *)
Theorem getAllDocuments_newest_first (w : World) (Hdb : w_db_fault w = None) :
  exists docs w', getAllDocuments w = (Ok docs, w')
  /\ Permutation docs (w_db w)
  /\ StronglySorted newer_first docs
  /\ (w_db w = [] -> docs = []).
Proof.
  exists (sort_desc (w_db w)), (log_event EvDbFindAll w).
  unfold getAllDocuments, repo_find_desc. rewrite Hdb.
  split; [reflexivity|]. split; [apply sort_desc_perm|]. split; [apply sort_desc_sorted|].
  intros ->. reflexivity.
Qed.

Definition doc_at (n t : N) : Document := mkDocument (hex24 n) (lit "doc.txt") (Some (lit "/tmp/doc.txt")) None None t t.

Definition world_three : World :=
  mkWorld [] [] [] None [doc_at 1 100; doc_at 3 300; doc_at 2 200] None 400 [] 4 [].

Lemma getAllDocuments_newest_first_witness :
  w_db_fault world_three = None
  /\ fst (getAllDocuments world_three) = Ok [doc_at 3 300; doc_at 2 200; doc_at 1 100]
  /\ exists docs w', getAllDocuments world_three = (Ok docs, w')
     /\ StronglySorted newer_first docs.
Proof.
  split; [reflexivity|]. split; [vm_compute; reflexivity|].
  destruct (getAllDocuments_newest_first world_three eq_refl) as (docs & w' & H & _ & Hs & _).
  exists docs, w'; split; assumption.
Defined.

(** ** C9: shape of generated S3 keys *)

Definition is_digit (c : N) : bool := ((48 <=? c) && (c <=? 57))%N.

Lemma dec_aux_digits (f : nat) (n : N) (acc : jsstr) :
  Forall (fun c => is_digit c = true) acc ->
  Forall (fun c => is_digit c = true) (dec_aux f n acc) /\ (acc <> [] -> dec_aux f n acc <> []).
Proof.
  revert n acc; induction f as [|f IH]; intros n acc Hacc; simpl; [split; auto|].
  assert (Hd : is_digit (48 + n mod 10)%N = true).
  { unfold is_digit. pose proof (N.mod_lt n 10 ltac:(discriminate)) as Hm.
    revert Hm; generalize (n mod 10)%N; intros m Hm.
    apply andb_true_intro; split; apply N.leb_le; lia. }
  destruct (n <? 10)%N.
  - split; [constructor; assumption | discriminate].
  - destruct (IH (n / 10)%N ((48 + n mod 10)%N :: acc) (Forall_cons _ Hd Hacc)) as [H1 H2].
    split; [exact H1 | intros _; apply H2; discriminate].
Qed.

Lemma dec_aux_nonempty (f : nat) (n : N) (acc : jsstr) :
  acc <> [] -> dec_aux f n acc <> [].
Proof.
  revert n acc; induction f as [|f IH]; intros n acc Hacc; [exact Hacc|].
  cbn [dec_aux]. destruct (n <? 10)%N; [discriminate | apply IH; discriminate].
Qed.

Lemma dec_aux_S (f : nat) (n : N) (acc : jsstr) :
  dec_aux (S f) n acc
  = if (n <? 10)%N then (48 + n mod 10)%N :: acc
    else dec_aux f (n / 10)%N ((48 + n mod 10)%N :: acc).
Proof. reflexivity. Qed.

(** C9. [generateS3Key(originalName)] is, with the clock and the random
    source of the world, ["documents/"] followed by the decimal timestamp,
    ["-"], the random string, ["-"] and the sanitized name. The sanitized
    name has one code unit per code unit of [originalName]: each one in
    [A-Za-z0-9.-] is kept and each other one becomes ['_'], so it holds no
    character outside [A-Za-z0-9._-] (no space in particular). The
    timestamp is a non-empty string of decimal digits. *)
Theorem generateS3Key_shape (w : World) (originalName : jsstr) :
  generateS3Key originalName w
  = (Ok (lit "documents/" ++ dec_string (w_now w) ++ lit "-" ++ w_random w ++ lit "-"
         ++ sanitize originalName), w)
  /\ dec_string (w_now w) <> [] /\ Forall (fun c => is_digit c = true) (dec_string (w_now w))
  /\ List.length (sanitize originalName) = List.length originalName
  /\ (forall i c, nth_error originalName i = Some c ->
        nth_error (sanitize originalName) i = Some (if key_char_allowed c then c else 95%N))
  /\ Forall (fun c => key_char_allowed c = true \/ c = 95%N) (sanitize originalName)
  /\ ~ In 32%N (sanitize originalName).
Proof.
  destruct (dec_aux_digits (S (N.size_nat (w_now w))) (w_now w) [] (Forall_nil _)) as [Hd _].
  split; [reflexivity|].
  split.
  { unfold dec_string. rewrite dec_aux_S. destruct (w_now w <? 10)%N; [discriminate|].
    apply dec_aux_nonempty; discriminate. }
  split; [exact Hd|].
  unfold sanitize. split; [apply length_map|].
  split; [intros i c Hc; rewrite nth_error_map, Hc; reflexivity|].
  assert (Hall : Forall (fun c => key_char_allowed c = true \/ c = 95%N)
                   (map (fun c => if key_char_allowed c then c else 95%N) originalName)).
  { apply Forall_map, Forall_forall. intros c _.
    destruct (key_char_allowed c) eqn:E; [left; exact E | right; reflexivity]. }
  split; [exact Hall|].
  intro Hin. rewrite Forall_forall in Hall. destruct (Hall _ Hin) as [H | H];
    [discriminate H | discriminate H].
Qed.

(** ** C10: a buffer takes precedence over a path *)

(** C10. Under the S3 and MongoDB backends, a [createDocument] given both a
    path and a buffer never reads the file, whatever its outcome: no
    file-read event is added to the log. When it succeeds, the content it
    persists is the buffer: the object uploaded under the record's [s3Key]
    (S3), or the record's [buffer] (MongoDB). *)
Theorem createDocument_buffer_precedence (cfg : BaseConfig) (w : World) (nm p : jsstr)
    (b : bytes) (Hcfg : active_backend cfg <> Filesystem) :
  (forall r w1, createDocument cfg nm (Some p) (Some b) w = (r, w1) ->
     forall q, In (EvReadFile q) (w_log w1) -> In (EvReadFile q) (w_log w))
  /\ (forall d w1, createDocument cfg nm (Some p) (Some b) w = (Ok d, w1) ->
       match active_backend cfg with
       | ObjectStorage => exists k, s3Key d = Some k /\ lookup k (w_s3 w1) = Some b
       | EmbeddedBlob => buffer d = Some b
       | Filesystem => False
       end).
Proof.
  split.
  - intros r w1 H q Hin.
    unfold active_backend in Hcfg. unfold createDocument in H.
    destruct (isS3Storage cfg);
      [|destruct (isMongoDBStorage cfg); [|exfalso; apply Hcfg; reflexivity]];
      unfold generateS3Key, uploadFile, repo_save in H; mreduce;
      destruct (w_s3_fault w); proj; destruct (w_db_fault w);
      inversion H; subst; proj;
      repeat (destruct Hin as [Hin | Hin]; [discriminate Hin|]); exact Hin.
  - intros d w1 H.
    destruct (createDocument_ok _ _ _ _ _ _ _ H) as (_ & _ & _ & _ & _ & Hloc).
    destruct (active_backend cfg); [exfalso; apply Hcfg; reflexivity| |].
    + destruct Hloc as (b' & Hb & _ & _ & Hprov). simpl in Hprov. congruence.
    + destruct Hloc as (k & b' & Hk & _ & _ & _ & Hl & _ & Hprov). simpl in Hprov.
      subst b'. exists k; split; assumption.
Qed.

Lemma createDocument_buffer_precedence_witness :
  active_backend cfg_s3 <> Filesystem
  /\ (forall r w1, createDocument cfg_s3 (lit "x.txt") (Some (lit "/missing")) (Some hello) world0
                   = (r, w1) ->
        forall q, In (EvReadFile q) (w_log w1) -> In (EvReadFile q) (w_log world0)).
Proof.
  assert (H : active_backend cfg_s3 <> Filesystem) by discriminate.
  split; [exact H|].
  exact (proj1 (createDocument_buffer_precedence cfg_s3 world0 (lit "x.txt") (lit "/missing")
                  hello H)).
Defined.

(** * The HTTP layer: configuration, upload middleware, controller *)

(** ** BaseConfig.STORAGE_TYPE *)

(** [(process.env.STORAGE_TYPE as 'filesystem' | 'mongodb' | 's3') || 'filesystem']:
    the cast checks nothing at run time, so every truthy value is kept as
    it is; an unset or empty variable gives ['filesystem']. *)
Definition storage_type_of_env (env : option jsstr) : BaseConfig :=
  mkBaseConfig (match js_truthy_str env with Some s => s | None => lit "filesystem" end).

(** ** The upload middleware of [index.ts] *)

Module Multer.

(** The file object [multer] attaches to the request ([req.file]). *)
Record File := mkFile {
  originalname : jsstr;
  filename : jsstr;
  path : option jsstr;
  buffer : option bytes;
  size : N
}.

(** [multer.diskStorage] with the [destination] and [filename] callbacks of
    [index.ts]: the upload is written to [path.join(uploadsDir, filename)]
    with [filename = `${Date.now()}-${file.originalname}`]. The disk storage
    reports [destination], [filename], [path] and [size]; [buffer] is only
    filled by the memory storage, so it is [undefined] here. [uploadsDir]
    is the normalized absolute path [path.join(__dirname, '../uploads')],
    and [originalname] is a base name (multer leaves [preservePath] off),
    so the join is the concatenation with one ['/']. *)
Definition diskStorage (uploadsDir originalname : jsstr) (content : bytes) : M File := fun w =>
  let filename := dec_string (w_now w) ++ lit "-" ++ originalname in
  let p := uploadsDir ++ lit "/" ++ filename in
  (Ok (mkFile originalname filename (Some p) None (N.of_nat (List.length content))),
   with_fs (put_key p content (w_fs w)) w).

End Multer.

(** ** Response models *)

Module UploadDocumentResponse.

Record t := mk {
  message : jsstr;
  id : jsstr;
  name : jsstr;
  path : option jsstr;
  createdAt : N;
  updatedAt : N
}.

(** [new UploadDocumentResponse(document)]: [document.id.toString()] is the
    hex string of the ObjectId; [document.path || undefined] drops an empty
    path. *)
Definition new (document : Document) : t :=
  match document with
  | mkDocument i n p _ _ c u => mk (lit "File uploaded successfully") i n (js_truthy_str p) c u
  end.

End UploadDocumentResponse.

Module GetDocumentContentResponse.

Record t := mk {
  id : jsstr;
  name : jsstr;
  path : option jsstr;
  content : jsstr
}.

(** [new GetDocumentContentResponse(document, content)] *)
Definition new (document : Document) (content : jsstr) : t :=
  match document with
  | mkDocument i n p _ _ _ _ => mk i n (js_truthy_str p) content
  end.

End GetDocumentContentResponse.

(** ** DocumentController *)

Module DocumentController.

(** The object literal [listDocuments] builds for each record. *)
Record ListItem := mkListItem {
  id : jsstr;
  name : jsstr;
  path : option jsstr;
  createdAt : N;
  updatedAt : N
}.

(** [{ success: true, message: 'Document deleted successfully' }] *)
Record DeleteResult := mkDeleteResult { success : bool; message : jsstr }.

(** [uploadDocument(request)] with [request.file] as [file]; the
    [console.log] call has no effect on the state. *)
Definition uploadDocument (cfg : BaseConfig) (file : option Multer.File)
    : M UploadDocumentResponse.t :=
  match file with
  | None => throw (lit "No file uploaded")
  | Some file =>
      document <-
        (if isS3Storage cfg then
           createDocument cfg (Multer.originalname file) None (Multer.buffer file)
         else if isMongoDBStorage cfg then
           createDocument cfg (Multer.originalname file) None (Multer.buffer file)
         else createDocument cfg (Multer.originalname file) (Multer.path file) None) ;;
      ret (UploadDocumentResponse.new document)
  end.

Definition to_item (doc : Document) : ListItem :=
  match doc with
  | mkDocument i n p _ _ c u => mkListItem i n p c u
  end.

Definition listDocuments : M (list ListItem) :=
  documents <- getAllDocuments ;;
  ret (map to_item documents).

Definition getDocumentContent (utf8_decode : bytes -> jsstr) (cfg : BaseConfig) (id : jsstr)
    : M GetDocumentContentResponse.t :=
  r <- getDocumentContent utf8_decode cfg id ;;
  ret (GetDocumentContentResponse.new (fst r) (snd r)).

Definition deleteDocument (cfg : BaseConfig) (id : jsstr) : M DeleteResult :=
  deleteDocument cfg id ;;;
  ret (mkDeleteResult true (lit "Document deleted successfully")).

End DocumentController.

(** The route [POST /api/document/upload] of [index.ts]: [upload.single('file')]
    stores the file, then the controller runs on the request it filled. *)
Definition upload_pipeline (uploadsDir : jsstr) (cfg : BaseConfig) (originalname : jsstr)
    (content : bytes) : M UploadDocumentResponse.t :=
  file <- Multer.diskStorage uploadsDir originalname content ;;
  DocumentController.uploadDocument cfg (Some file).

(** The storage a computation may change: files, bucket, collection. *)
Definition same_storage (w w1 : World) : Prop :=
  w_fs w1 = w_fs w /\ w_s3 w1 = w_s3 w /\ w_db w1 = w_db w.

(** ** Facts about the lookups, ids and buffers *)

Lemma js_truthy_app_cons (a : jsstr) (c : N) (b : jsstr) :
  js_truthy_str (Some (a ++ c :: b)) = Some (a ++ c :: b).
Proof. destruct a; reflexivity. Qed.

Lemma lookup_remove_other {A} (k k' : jsstr) (l : list (jsstr * A)) :
  k' <> k -> lookup k' (remove_key k l) = lookup k' l.
Proof.
  intro Hne. induction l as [|[k0 v] l IH]; simpl; [reflexivity|].
  destruct (jseqb k0 k) eqn:E; simpl.
  - apply jseqb_true in E; subst k0. rewrite (jseqb_false k k') by congruence. exact IH.
  - destruct (jseqb k0 k'); [reflexivity | exact IH].
Qed.

Lemma lookup_put_other {A} (k k' : jsstr) (v : A) (l : list (jsstr * A)) :
  k' <> k -> lookup k' (put_key k v l) = lookup k' l.
Proof.
  intro Hne. unfold put_key; simpl. rewrite (jseqb_false k k') by congruence.
  apply lookup_remove_other; exact Hne.
Qed.

Ltac leb_cases :=
  repeat match goal with |- context [(?a <=? ?b)%N] => destruct (N.leb_spec a b) end.

Lemma is_hex_to_lower (c : N) : is_hex (to_lower c) = is_hex c.
Proof.
  unfold to_lower. destruct (N.leb_spec 65 c), (N.leb_spec c 90); cbn [andb];
    unfold is_hex; leb_cases; cbn [andb orb]; first [reflexivity | exfalso; lia].
Qed.

Lemma forallb_is_hex_lower (l : jsstr) : forallb is_hex (map to_lower l) = forallb is_hex l.
Proof. induction l as [|c l IH]; simpl; [reflexivity|]. now rewrite is_hex_to_lower, IH. Qed.

(** [new ObjectId(s)] only depends on [s] up to the letter case. *)
Lemma parse_objectid_case (id id' : jsstr) :
  map to_lower id' = map to_lower id -> parse_objectid id' = parse_objectid id.
Proof.
  intro H. unfold parse_objectid.
  rewrite <- (length_map to_lower id'), <- (forallb_is_hex_lower id'), H,
    length_map, forallb_is_hex_lower.
  reflexivity.
Qed.

Lemma in_drop_id (x : Document) (o : jsstr) (db : list Document) :
  In x db -> doc_id x <> o -> In x (drop_id o db).
Proof.
  intros Hin Hne. unfold drop_id. apply filter_In. split; [exact Hin|].
  rewrite jseqb_false by exact Hne. reflexivity.
Qed.

Lemma find_doc_id (db : list Document) (o : jsstr) (d : Document) :
  find_doc db o = Some d -> doc_id d = o.
Proof. intro H. apply find_some in H as [_ H]. now apply jseqb_true. Qed.

(** ** BaseConfig *)

(** X1. The backend a deployment runs is read off the environment variable
    [STORAGE_TYPE]: exactly ["s3"] selects S3, exactly ["mongodb"] selects
    MongoDB, and every other value (unset, empty, ["S3"], a typo) selects
    the file system. [isFileSystemStorage] is [false] for such a truthy
    value other than ["filesystem"], although the file system branch runs. *)
Theorem storage_type_resolution (env : option jsstr) :
  (env = Some (lit "s3") -> active_backend (storage_type_of_env env) = ObjectStorage)
  /\ (env = Some (lit "mongodb") -> active_backend (storage_type_of_env env) = EmbeddedBlob)
  /\ (env <> Some (lit "s3") -> env <> Some (lit "mongodb") ->
      active_backend (storage_type_of_env env) = Filesystem)
  /\ (js_truthy_str env = None -> isFileSystemStorage (storage_type_of_env env) = true)
  /\ (forall s, env = Some s -> s <> [] -> s <> lit "filesystem" ->
      isFileSystemStorage (storage_type_of_env env) = false).
Proof.
  split; [intros ->; reflexivity|].
  split; [intros ->; reflexivity|].
  split.
  - intros H1 H2. destruct env as [[|c cs]|]; [reflexivity| |reflexivity].
    unfold storage_type_of_env, active_backend, isS3Storage, isMongoDBStorage; cbn [js_truthy_str STORAGE_TYPE].
    rewrite !jseqb_false by congruence. reflexivity.
  - split.
    + destruct env as [[|c cs]|]; cbn [js_truthy_str]; [reflexivity | discriminate | reflexivity].
    + intros s -> Hne Hnf. destruct s as [|c cs]; [contradiction|].
      unfold isFileSystemStorage, storage_type_of_env; cbn [js_truthy_str STORAGE_TYPE].
      apply jseqb_false; exact Hnf.
Qed.

(** ** S3Service *)

(** X2. With the bucket reachable, [uploadFile(key, body)] resolves to
    [key], a [downloadFile(key)] right after returns [body] decoded, and
    every other key of the bucket is left as it was. With the bucket
    unreachable, it fails with ["Failed to upload file to S3: "] and the
    cause, and the bucket is unchanged. *)
Theorem uploadFile_downloadFile (utf8_decode : bytes -> jsstr) (key : jsstr) (body : bytes)
    (w : World) :
  (w_s3_fault w = None ->
     exists w1, uploadFile key body w = (Ok key, w1)
     /\ downloadFile utf8_decode key w1 = (Ok (utf8_decode body), log_event (EvS3Get key) w1)
     /\ forall k', k' <> key -> lookup k' (w_s3 w1) = lookup k' (w_s3 w))
  /\ (forall e, w_s3_fault w = Some e ->
     exists w1, uploadFile key body w = (Err (lit "Failed to upload file to S3: " ++ e), w1)
     /\ w_s3 w1 = w_s3 w).
Proof.
  unfold uploadFile, downloadFile. split.
  - intro Hf. rewrite Hf. eexists; split; [reflexivity|]. proj. rewrite Hf, lookup_put.
    split; [reflexivity|]. intros k' Hk. apply lookup_put_other; exact Hk.
  - intros e He. rewrite He. eexists; split; reflexivity.
Qed.

(** X3. With the bucket reachable, [deleteFile(key)] succeeds, a
    [downloadFile(key)] afterwards fails with ["Failed to download file
    from S3: The specified key does not exist."], and every other key of
    the bucket is left as it was. *)
Theorem deleteFile_downloadFile (utf8_decode : bytes -> jsstr) (key : jsstr) (w : World)
    (Hf : w_s3_fault w = None) :
  exists w1, deleteFile key w = (Ok tt, w1)
  /\ downloadFile utf8_decode key w1
     = (Err (lit "Failed to download file from S3: The specified key does not exist."),
        log_event (EvS3Get key) w1)
  /\ forall k', k' <> key -> lookup k' (w_s3 w1) = lookup k' (w_s3 w).
Proof.
  unfold deleteFile, downloadFile. rewrite Hf. eexists; split; [reflexivity|]. proj.
  rewrite Hf, lookup_remove. split; [reflexivity|].
  intros k' Hk. apply lookup_remove_other; exact Hk.
Qed.

Lemma deleteFile_downloadFile_witness :
  w_s3_fault (world_s3 None) = None
  /\ exists w1, deleteFile s3_key0 (world_s3 None) = (Ok tt, w1)
     /\ downloadFile ascii_decode s3_key0 w1
        = (Err (lit "Failed to download file from S3: The specified key does not exist."),
           log_event (EvS3Get s3_key0) w1).
Proof.
  split; [reflexivity|].
  destruct (deleteFile_downloadFile ascii_decode s3_key0 (world_s3 None) eq_refl)
    as (w1 & H1 & H2 & _).
  exists w1; split; assumption.
Defined.

(** ** Looking records up by id *)

(** X4. [getDocumentById] never rejects: it always resolves. A malformed id
    resolves to [null] without querying the collection (the world is left
    as it was), and so does every id while the database is unreachable. *)
Theorem getDocumentById_never_rejects (id : jsstr) (w : World) :
  (exists r w', getDocumentById id w = (Ok r, w'))
  /\ (parse_objectid id = None -> getDocumentById id w = (Ok None, w))
  /\ (forall e, w_db_fault w = Some e -> fst (getDocumentById id w) = Ok None).
Proof.
  unfold getDocumentById, repo_findOneBy. mreduce.
  destruct (parse_objectid id) as [o|].
  - split; [destruct (w_db_fault w); eexists; eexists; reflexivity|].
    split; [discriminate|]. intros e ->. reflexivity.
  - split; [eexists; eexists; reflexivity|]. split; [reflexivity|]. intros; reflexivity.
Qed.

(** X5. Two id strings that differ only in the case of their letters are the
    same id: [getDocumentById], [getDocumentContent] and [deleteDocument]
    give the same outcome and the same world for both. *)
Theorem id_letter_case_irrelevant (utf8_decode : bytes -> jsstr) (cfg : BaseConfig)
    (id id' : jsstr) (w : World) (Hcase : map to_lower id' = map to_lower id) :
  getDocumentById id' w = getDocumentById id w
  /\ getDocumentContent utf8_decode cfg id' w = getDocumentContent utf8_decode cfg id w
  /\ deleteDocument cfg id' w = deleteDocument cfg id w.
Proof.
  assert (H : getDocumentById id' w = getDocumentById id w).
  { unfold getDocumentById. now rewrite (parse_objectid_case _ _ Hcase). }
  split; [exact H|].
  unfold getDocumentContent, deleteDocument, bind. rewrite H. split; reflexivity.
Qed.

Definition world_case : World :=
  mkWorld [] [] [] None [doc_at 10 100] None 200 [] 11 [].

Lemma id_letter_case_irrelevant_witness :
  map to_lower (lit "00000000000000000000000A") = map to_lower (hex24 10)
  /\ fst (getDocumentById (hex24 10) world_case) = Ok (Some (doc_at 10 100))
  /\ getDocumentById (lit "00000000000000000000000A") world_case
     = getDocumentById (hex24 10) world_case.
Proof.
  assert (Hc : map to_lower (lit "00000000000000000000000A") = map to_lower (hex24 10))
    by (vm_compute; reflexivity).
  split; [exact Hc|]. split; [vm_compute; reflexivity|].
  exact (proj1 (id_letter_case_irrelevant ascii_decode cfg_fs _ _ world_case Hc)).
Defined.

(** X6. While the database is unreachable, reading or deleting any id fails
    with ["Document not found"], the error of a missing record, and a
    delete changes no storage; listing instead fails with the database's
    own error. *)
Theorem db_outage_reads_as_not_found (utf8_decode : bytes -> jsstr) (cfg : BaseConfig)
    (id : jsstr) (w : World) (e : jsstr) (Hdown : w_db_fault w = Some e) :
  (exists w', getDocumentContent utf8_decode cfg id w = (Err not_found_msg, w'))
  /\ (exists w', deleteDocument cfg id w = (Err not_found_msg, w') /\ same_storage w w')
  /\ getAllDocuments w = (Err e, log_event EvDbFindAll w).
Proof.
  unfold getDocumentContent, deleteDocument, getDocumentById, repo_findOneBy, getAllDocuments,
    repo_find_desc, same_storage.
  mreduce. rewrite Hdown.
  destruct (parse_objectid id); proj; rewrite ?Hdown;
    (split; [eexists; reflexivity|]); (split; [eexists; split; [reflexivity|]; proj; auto|]);
    reflexivity.
Qed.

Definition world_down : World :=
  mkWorld [] [] [] None [doc_fs] (Some (lit "connection refused")) 0 [] 2 [].

Lemma db_outage_reads_as_not_found_witness :
  w_db_fault world_down = Some (lit "connection refused")
  /\ exists w', getDocumentContent ascii_decode cfg_fs (hex24 1) world_down
                = (Err not_found_msg, w').
Proof.
  split; [reflexivity|].
  exact (proj1 (db_outage_reads_as_not_found ascii_decode cfg_fs (hex24 1) world_down
                  (lit "connection refused") eq_refl)).
Defined.

(** ** What a create leaves behind *)

Lemma createDocument_effects_aux (cfg : BaseConfig) (nm : jsstr) (path0 : option jsstr)
    (fb : option bytes) (w : World) (r : result Document) (w1 : World) :
  createDocument cfg nm path0 fb w = (r, w1) ->
  w_fs w1 = w_fs w /\ w_db_fault w1 = w_db_fault w
  /\ match r with
     | Ok d => w_db w1 = d :: drop_id (doc_id d) (w_db w)
     | Err _ => w_db w1 = w_db w /\ w_next_oid w1 = w_next_oid w
     end.
Proof.
  unfold createDocument, generateS3Key, uploadFile, repo_save, fs_readFile. mreduce.
  intro H.
  destruct (isS3Storage cfg); [|destruct (isMongoDBStorage cfg)]; destruct fb as [b|];
    try destruct (js_truthy_str path0) as [p|]; try destruct (lookup p (w_fs w)); proj;
    destruct (w_s3_fault w) eqn:Es3; proj; destruct (w_db_fault w) eqn:Edb; proj;
    inversion H; subst; proj; auto.
Qed.

(** X7. [createDocument] never writes to the local file system. When it
    fails, the collection is left as it was: a failed upload adds no
    record. When it succeeds, the collection gains the new record and keeps
    every other one. *)
Theorem createDocument_effects (cfg : BaseConfig) (nm : jsstr) (path0 : option jsstr)
    (fileBuffer : option bytes) (w : World) (r : result Document) (w1 : World)
    (H : createDocument cfg nm path0 fileBuffer w = (r, w1)) :
  w_fs w1 = w_fs w
  /\ match r with
     | Ok d => w_db w1 = d :: drop_id (doc_id d) (w_db w)
     | Err _ => w_db w1 = w_db w
     end.
Proof.
  destruct (createDocument_effects_aux _ _ _ _ _ _ _ H) as (Hfs & _ & Hdb).
  split; [exact Hfs|]. destruct r; [exact Hdb | exact (proj1 Hdb)].
Qed.

Lemma createDocument_effects_witness :
  let r := createDocument cfg_fs (lit "gone.txt") None None world_fs in
  fst r = Err (lit "Path must be provided for filesystem storage")
  /\ w_db (snd r) = w_db world_fs.
Proof.
  intro r. split; [vm_compute; reflexivity|].
  exact (proj2 (createDocument_effects cfg_fs (lit "gone.txt") None None world_fs
                  (Err (lit "Path must be provided for filesystem storage")) (snd r)
                  ltac:(vm_compute; reflexivity))).
Defined.

(** X8. Under S3, when the object is uploaded but saving the record fails,
    [createDocument] fails with the database's error and the object stays
    in the bucket under the generated key, with no record pointing to
    it. *)
Theorem createDocument_s3_orphan (cfg : BaseConfig) (nm : jsstr) (path0 : option jsstr)
    (b : bytes) (w : World) (e : jsstr)
    (Hcfg : active_backend cfg = ObjectStorage) (Hs3 : w_s3_fault w = None)
    (Hdb : w_db_fault w = Some e) :
  exists k w1, fst (generateS3Key nm w) = Ok k
  /\ createDocument cfg nm path0 (Some b) w = (Err e, w1)
  /\ w_db w1 = w_db w /\ lookup k (w_s3 w1) = Some b.
Proof.
  unfold active_backend in Hcfg.
  destruct (isS3Storage cfg) eqn:E; [|destruct (isMongoDBStorage cfg); discriminate].
  unfold createDocument, generateS3Key, uploadFile, repo_save. rewrite E. mreduce.
  rewrite Hs3. proj. rewrite Hdb.
  eexists _, _; split; [reflexivity|]. split; [reflexivity|]. proj.
  split; [reflexivity | apply lookup_put].
Qed.

Definition world_s3_db_down : World :=
  mkWorld [] [] [] None [] (Some (lit "connection refused")) 1700000000000 (lit "4fzyo82mvyr") 1 [].

Lemma createDocument_s3_orphan_witness :
  active_backend cfg_s3 = ObjectStorage
  /\ exists k w1, fst (generateS3Key (lit "note.txt") world_s3_db_down) = Ok k
     /\ createDocument cfg_s3 (lit "note.txt") None (Some hello) world_s3_db_down
        = (Err (lit "connection refused"), w1)
     /\ lookup k (w_s3 w1) = Some hello.
Proof.
  split; [reflexivity|].
  destruct (createDocument_s3_orphan cfg_s3 (lit "note.txt") None hello world_s3_db_down
              (lit "connection refused") eq_refl eq_refl eq_refl) as (k & w1 & H1 & H2 & _ & H4).
  exists k, w1; split; [exact H1|]. split; assumption.
Defined.

(** X9. Under S3 and MongoDB, a create with no buffer and no truthy path
    fails with the backend's ["Either path or fileBuffer must be provided
    for ... storage"] error and changes nothing. A create with no buffer and
    a path naming no file fails with the unwrapped [ENOENT] error of
    [fs.readFile]: nothing is uploaded and nothing is saved. *)
Theorem createDocument_blob_missing_content (cfg : BaseConfig) (nm : jsstr) (w : World)
    (Hcfg : active_backend cfg <> Filesystem) :
  (forall path0, js_truthy_str path0 = None ->
     createDocument cfg nm path0 None w
     = (Err (if isS3Storage cfg then lit "Either path or fileBuffer must be provided for S3 storage"
             else lit "Either path or fileBuffer must be provided for MongoDB storage"), w))
  /\ (forall p, js_truthy_str (Some p) = Some p -> lookup p (w_fs w) = None ->
     createDocument cfg nm (Some p) None w
     = (Err (lit "ENOENT: no such file or directory, open '" ++ p ++ lit "'"),
        log_event (EvReadFile p) w)).
Proof.
  unfold active_backend in Hcfg.
  destruct (isS3Storage cfg) eqn:E;
    [|destruct (isMongoDBStorage cfg) eqn:Em; [|exfalso; apply Hcfg; reflexivity]];
    (split; [intros path0 Hp | intros p Hp Hl]); unfold createDocument, fs_readFile;
    rewrite ?E, ?Em; mreduce; rewrite Hp; rewrite ?Hl; reflexivity.
Qed.

Lemma createDocument_blob_missing_content_witness :
  active_backend cfg_mongo <> Filesystem
  /\ createDocument cfg_mongo (lit "x.txt") (Some (lit "/missing")) None world0
     = (Err (lit "ENOENT: no such file or directory, open '" ++ lit "/missing" ++ lit "'"),
        log_event (EvReadFile (lit "/missing")) world0).
Proof.
  assert (H : active_backend cfg_mongo <> Filesystem) by discriminate.
  split; [exact H|].
  exact (proj2 (createDocument_blob_missing_content cfg_mongo (lit "x.txt") world0 H)
           (lit "/missing") eq_refl ltac:(vm_compute; reflexivity)).
Defined.

(** X10. After a successful [createDocument], [getAllDocuments] lists the
    new record together with every record stored before under another
    id. *)
Theorem createDocument_then_listed (cfg : BaseConfig) (nm : jsstr) (path0 : option jsstr)
    (fileBuffer : option bytes) (w : World) (d : Document) (w1 : World)
    (H : createDocument cfg nm path0 fileBuffer w = (Ok d, w1)) :
  exists docs w2, getAllDocuments w1 = (Ok docs, w2) /\ In d docs
  /\ forall x, In x (w_db w) -> doc_id x <> doc_id d -> In x docs.
Proof.
  destruct (createDocument_effects_aux _ _ _ _ _ _ _ H) as (_ & _ & Hdb).
  destruct (createDocument_ok _ _ _ _ _ _ _ H) as (_ & _ & Hf & _).
  exists (sort_desc (w_db w1)), (log_event EvDbFindAll w1).
  unfold getAllDocuments, repo_find_desc. rewrite Hf. split; [reflexivity|].
  rewrite Hdb. split.
  - apply (Permutation_in _ (Permutation_sym (sort_desc_perm _))). left; reflexivity.
  - intros x Hx Hne. apply (Permutation_in _ (Permutation_sym (sort_desc_perm _))).
    right. apply in_drop_id; assumption.
Qed.

Lemma createDocument_then_listed_witness :
  let r := createDocument cfg_fs (lit "new.txt") (Some (lit "/tmp/new.txt")) None world_three in
  r = (Ok (doc_of r), snd r)
  /\ exists docs w2, getAllDocuments (snd r) = (Ok docs, w2) /\ In (doc_of r) docs
     /\ In (doc_at 2 200) docs.
Proof.
  intro r.
  assert (Hc : r = (Ok (doc_of r), snd r)) by (vm_compute; reflexivity).
  split; [exact Hc|].
  destruct (createDocument_then_listed cfg_fs (lit "new.txt") (Some (lit "/tmp/new.txt")) None
              world_three (doc_of r) (snd r) Hc) as (docs & w2 & H1 & H2 & H3).
  exists docs, w2. split; [exact H1|]. split; [exact H2|].
  apply H3; [right; right; left; reflexivity | vm_compute; discriminate].
Defined.

(** ** What a delete leaves behind *)

(** X11. Deleting an id no record answers to (malformed, or absent from the
    collection) fails with ["Document not found"] and changes no storage:
    no file, object or record is removed. *)
Theorem deleteDocument_not_found (cfg : BaseConfig) (id : jsstr) (w : World)
    (Habsent : no_record (w_db w) id) :
  exists w', deleteDocument cfg id w = (Err not_found_msg, w') /\ same_storage w w'.
Proof.
  unfold no_record in Habsent. unfold deleteDocument, getDocumentById, repo_findOneBy, same_storage.
  mreduce.
  destruct (parse_objectid id) as [o|].
  - destruct (w_db_fault w); [|rewrite Habsent]; (eexists; split; [reflexivity|]); proj; auto.
  - eexists; split; [reflexivity|]; auto.
Qed.

Lemma deleteDocument_not_found_witness :
  no_record (w_db world_fs) (hex24 7)
  /\ exists w', deleteDocument cfg_fs (hex24 7) world_fs = (Err not_found_msg, w')
     /\ w_db w' = [doc_fs].
Proof.
  assert (H : no_record (w_db world_fs) (hex24 7)) by (vm_compute; reflexivity).
  split; [exact H|].
  destruct (deleteDocument_not_found cfg_fs (hex24 7) world_fs H) as (w' & Hd & _ & _ & Hdb).
  exists w'; split; [exact Hd | exact Hdb].
Defined.

(** X12. Under MongoDB, deleting a stored record touches neither the file
    system nor the bucket, even when the record carries a [path] or an
    [s3Key]: the only I/O is the lookup and the delete in the collection,
    and the record is gone. *)
Theorem deleteDocument_mongo_no_file_io (cfg : BaseConfig) (id o : jsstr) (w : World)
    (d : Document) (Hcfg : active_backend cfg = EmbeddedBlob)
    (Hparse : parse_objectid id = Some o) (Hdbf : w_db_fault w = None)
    (Hfind : find_doc (w_db w) o = Some d) :
  exists w', deleteDocument cfg id w = (Ok tt, w')
  /\ w_fs w' = w_fs w /\ w_s3 w' = w_s3 w
  /\ w_log w' = [EvDbDelete o; EvDbFind o] ++ w_log w
  /\ find_doc (w_db w') o = None.
Proof.
  unfold active_backend in Hcfg.
  destruct (isS3Storage cfg) eqn:Hs3; [discriminate|].
  destruct (isMongoDBStorage cfg) eqn:Hm; [|discriminate].
  unfold deleteDocument.
  rewrite (bind_ok _ _ _ _ _ (getDocumentById_found id o w d Hparse Hdbf Hfind)).
  mreduce. rewrite Hs3, Hm. unfold repo_delete. proj. rewrite Hdbf.
  rewrite (find_doc_id _ _ _ Hfind).
  eexists; split; [reflexivity|]. proj.
  split; [reflexivity|]. split; [reflexivity|]. split; [reflexivity|]. apply find_drop_id.
Qed.

Definition doc_everywhere : Document :=
  mkDocument (hex24 1) (lit "note.txt") (Some note_path) (Some hello) (Some s3_key0) 5 5.

Definition world_everywhere : World :=
  mkWorld [(note_path, hello)] [] [(s3_key0, hello)] None [doc_everywhere] None 0 [] 2 [].

Lemma deleteDocument_mongo_no_file_io_witness :
  active_backend cfg_mongo = EmbeddedBlob
  /\ find_doc (w_db world_everywhere) (hex24 1) = Some doc_everywhere
  /\ exists w', deleteDocument cfg_mongo (hex24 1) world_everywhere = (Ok tt, w')
     /\ w_fs w' = [(note_path, hello)] /\ w_s3 w' = [(s3_key0, hello)].
Proof.
  split; [reflexivity|]. split; [vm_compute; reflexivity|].
  destruct (deleteDocument_mongo_no_file_io cfg_mongo (hex24 1) (hex24 1) world_everywhere
              doc_everywhere eq_refl ltac:(vm_compute; reflexivity) eq_refl
              ltac:(vm_compute; reflexivity)) as (w' & Hd & Hfs & Hs3 & _).
  exists w'; split; [exact Hd|]. split; assumption.
Defined.

(** X13. Deleting a record that has a truthy [path] and no usable [s3Key]
    removes its file when the file exists and may be removed, under the
    file system backend and also under S3: the [path] branch of the delete
    is not gated on the backend. The record is gone from the collection. *)
Theorem deleteDocument_removes_file (cfg : BaseConfig) (id o p : jsstr) (w : World)
    (d : Document)
    (Hcfg : active_backend cfg = Filesystem
            \/ (active_backend cfg = ObjectStorage /\ js_truthy_str (s3Key d) = None))
    (Hparse : parse_objectid id = Some o) (Hdbf : w_db_fault w = None)
    (Hfind : find_doc (w_db w) o = Some d) (Hp : js_truthy_str (path d) = Some p)
    (Hfile : lookup p (w_fs w) <> None)
    (Hallowed : existsb (jseqb p) (w_unlink_denied w) = false) :
  exists w', deleteDocument cfg id w = (Ok tt, w')
  /\ lookup p (w_fs w') = None /\ find_doc (w_db w') o = None.
Proof.
  assert (Hbr : (if isS3Storage cfg then js_truthy_str (s3Key d) else None) = None
                /\ isMongoDBStorage cfg = false).
  { unfold active_backend in Hcfg.
    destruct (isS3Storage cfg) eqn:Hs3.
    - destruct Hcfg as [H | [_ H]]; [discriminate|]. split; [exact H|].
      apply isS3_not_mongo; exact Hs3.
    - destruct (isMongoDBStorage cfg); [destruct Hcfg as [H | [H _]]; discriminate|].
      split; reflexivity. }
  destruct Hbr as [Hk Hm].
  unfold deleteDocument.
  rewrite (bind_ok _ _ _ _ _ (getDocumentById_found id o w d Hparse Hdbf Hfind)).
  mreduce. rewrite Hk, Hm, Hp. unfold fs_unlink. proj. rewrite Hallowed.
  destruct (lookup p (w_fs w)) eqn:Hl; [|contradiction].
  unfold repo_delete. proj. rewrite Hdbf, (find_doc_id _ _ _ Hfind).
  eexists; split; [reflexivity|]. proj.
  split; [apply lookup_remove | apply find_drop_id].
Qed.

Definition world_fs_file : World :=
  mkWorld [(lit "/tmp/gone.txt", hello)] [] [] None [doc_fs] None 0 [] 2 [].

Lemma deleteDocument_removes_file_witness :
  active_backend cfg_s3 = ObjectStorage /\ js_truthy_str (s3Key doc_fs) = None
  /\ exists w', deleteDocument cfg_s3 (hex24 1) world_fs_file = (Ok tt, w')
     /\ lookup (lit "/tmp/gone.txt") (w_fs w') = None.
Proof.
  split; [reflexivity|]. split; [reflexivity|].
  destruct (deleteDocument_removes_file cfg_s3 (hex24 1) (hex24 1) (lit "/tmp/gone.txt")
              world_fs_file doc_fs (or_intror (conj eq_refl eq_refl))
              ltac:(vm_compute; reflexivity) eq_refl ltac:(vm_compute; reflexivity) eq_refl
              ltac:(vm_compute; discriminate) ltac:(vm_compute; reflexivity))
    as (w' & Hd & Hl & _).
  exists w'; split; assumption.
Defined.

(** X14. A successful [deleteDocument] removes exactly one record from the
    collection: the id parses as an ObjectId [o], a record with id [o] was
    stored, and the collection afterwards is the one before without
    [o]. *)
Theorem deleteDocument_removes_exactly_one (cfg : BaseConfig) (id : jsstr) (w w1 : World)
    (H : deleteDocument cfg id w = (Ok tt, w1)) :
  exists o d, parse_objectid id = Some o /\ find_doc (w_db w) o = Some d
  /\ w_db w1 = drop_id o (w_db w).
Proof.
  unfold deleteDocument, getDocumentById, repo_findOneBy, deleteFile, fs_unlink, repo_delete in H.
  mreduce.
  destruct (parse_objectid id) as [o|]; [|discriminate].
  destruct (w_db_fault w) eqn:Edb; [discriminate|].
  destruct (find_doc (w_db w) o) as [d|] eqn:Ef; [|discriminate].
  exists o, d. split; [reflexivity|]. split; [exact Ef|].
  rewrite (find_doc_id _ _ _ Ef) in H.
  destruct (isS3Storage cfg); [destruct (js_truthy_str (s3Key d)) as [k|]|]; proj;
    try destruct (w_s3_fault w); proj; destruct (isMongoDBStorage cfg); proj;
    destruct (js_truthy_str (path d)) as [p|]; proj;
    try destruct (existsb (jseqb p) (w_unlink_denied w)); proj;
    try destruct (lookup p (w_fs w)); proj;
    rewrite ?Edb in H; inversion H; subst; proj; reflexivity.
Qed.

Lemma deleteDocument_removes_exactly_one_witness :
  deleteDocument cfg_fs (hex24 3) world_three = (Ok tt, snd (deleteDocument cfg_fs (hex24 3) world_three))
  /\ w_db (snd (deleteDocument cfg_fs (hex24 3) world_three)) = drop_id (hex24 3) (w_db world_three).
Proof.
  assert (H : deleteDocument cfg_fs (hex24 3) world_three
              = (Ok tt, snd (deleteDocument cfg_fs (hex24 3) world_three)))
    by (vm_compute; reflexivity).
  split; [exact H|].
  destruct (deleteDocument_removes_exactly_one cfg_fs (hex24 3) world_three _ H)
    as (o & d & Hp & _ & Hdb).
  vm_compute in Hp. injection Hp as <-. exact Hdb.
Defined.

(** ** Reading *)

(** X15. Reading never changes the storage: [getDocumentById],
    [getDocumentContent] and [getAllDocuments] leave the files, the bucket
    and the collection as they were, whatever their outcome. *)
Theorem reads_preserve_storage (utf8_decode : bytes -> jsstr) (cfg : BaseConfig) (id : jsstr)
    (w : World) :
  (forall r w1, getDocumentById id w = (r, w1) -> same_storage w w1)
  /\ (forall r w1, getDocumentContent utf8_decode cfg id w = (r, w1) -> same_storage w w1)
  /\ (forall r w1, getAllDocuments w = (r, w1) -> same_storage w w1).
Proof.
  unfold same_storage.
  split; [|split]; intros r w1 H;
    unfold getDocumentContent, getDocumentById, repo_findOneBy, downloadFile, fs_readFile,
      getAllDocuments, repo_find_desc in H; mreduce.
  - destruct (parse_objectid id); proj; [destruct (w_db_fault w)|];
      inversion H; subst; proj; auto.
  - destruct (parse_objectid id) as [o|]; proj; [destruct (w_db_fault w); proj|];
      [| |inversion H; subst; proj; auto];
      [inversion H; subst; proj; auto|].
    destruct (find_doc (w_db w) o) as [d|]; proj; [|inversion H; subst; proj; auto].
    destruct (isS3Storage cfg); [destruct (js_truthy_str (s3Key d)) as [k|]|]; proj;
      try (destruct (w_s3_fault w); proj; [|destruct (lookup k (w_s3 w))]);
      try (destruct (isMongoDBStorage cfg); proj; [destruct (buffer d)|]); proj;
      try destruct (js_truthy_str (path d)) as [p|]; proj;
      try destruct (lookup p (w_fs w)); proj;
      inversion H; subst; proj; auto.
  - destruct (w_db_fault w); inversion H; subst; proj; auto.
Qed.

(** X16. Failures of the storage read are reported by [getDocumentContent]
    as ["Failed to read document content: "] followed by the underlying
    message: the [ENOENT] error of [fs.readFile] when a file system
    record's file is gone, and the S3 service's ["Failed to download file
    from S3: ..."] when the bucket is unreachable or the object is
    gone. *)
Theorem getDocumentContent_io_errors (utf8_decode : bytes -> jsstr) (cfg : BaseConfig)
    (id o : jsstr) (w : World) (d : Document)
    (Hparse : parse_objectid id = Some o) (Hdbf : w_db_fault w = None)
    (Hfind : find_doc (w_db w) o = Some d) :
  (forall p, active_backend cfg = Filesystem -> js_truthy_str (path d) = Some p ->
     lookup p (w_fs w) = None ->
     exists w', getDocumentContent utf8_decode cfg id w
       = (Err (lit "Failed to read document content: "
               ++ lit "ENOENT: no such file or directory, open '" ++ p ++ lit "'"), w'))
  /\ (forall k e, active_backend cfg = ObjectStorage -> js_truthy_str (s3Key d) = Some k ->
     w_s3_fault w = Some e ->
     exists w', getDocumentContent utf8_decode cfg id w
       = (Err (lit "Failed to read document content: "
               ++ lit "Failed to download file from S3: " ++ e), w'))
  /\ (forall k, active_backend cfg = ObjectStorage -> js_truthy_str (s3Key d) = Some k ->
     w_s3_fault w = None -> lookup k (w_s3 w) = None ->
     exists w', getDocumentContent utf8_decode cfg id w
       = (Err (lit "Failed to read document content: "
               ++ lit "Failed to download file from S3: The specified key does not exist."), w')).
Proof.
  unfold getDocumentContent.
  rewrite (bind_ok _ _ _ _ _ (getDocumentById_found id o w d Hparse Hdbf Hfind)).
  unfold active_backend.
  split; [|split].
  - intros p Hcfg Hp Hl.
    destruct (isS3Storage cfg) eqn:Hs3; [discriminate|].
    destruct (isMongoDBStorage cfg) eqn:Hm; [discriminate|].
    mreduce. rewrite ?Hs3, ?Hm, Hp. unfold fs_readFile. proj. rewrite Hl.
    eexists; reflexivity.
  - intros k e Hcfg Hk He.
    destruct (isS3Storage cfg) eqn:Hs3; [|destruct (isMongoDBStorage cfg); discriminate].
    mreduce. rewrite ?Hs3, Hk. unfold downloadFile. proj. rewrite He.
    eexists; reflexivity.
  - intros k Hcfg Hk He Hl.
    destruct (isS3Storage cfg) eqn:Hs3; [|destruct (isMongoDBStorage cfg); discriminate].
    mreduce. rewrite ?Hs3, Hk. unfold downloadFile. proj. rewrite He, Hl.
    eexists; reflexivity.
Qed.

Definition world_s3_lost : World :=
  mkWorld [] [] [] None [doc_s3] None 0 [] 2 [].

Lemma getDocumentContent_io_errors_witness :
  find_doc (w_db world_s3_lost) (hex24 1) = Some doc_s3
  /\ exists w', getDocumentContent ascii_decode cfg_s3 (hex24 1) world_s3_lost
       = (Err (lit "Failed to read document content: "
               ++ lit "Failed to download file from S3: The specified key does not exist."), w').
Proof.
  assert (Hf : find_doc (w_db world_s3_lost) (hex24 1) = Some doc_s3) by (vm_compute; reflexivity).
  split; [exact Hf|].
  exact (proj2 (proj2 (getDocumentContent_io_errors ascii_decode cfg_s3 (hex24 1) (hex24 1)
                         world_s3_lost doc_s3 ltac:(vm_compute; reflexivity) eq_refl Hf))
           s3_key0 eq_refl eq_refl eq_refl ltac:(vm_compute; reflexivity)).
Defined.

(** ** The upload route end to end *)

Lemma UploadDocumentResponse_new_fields (d : Document) :
  UploadDocumentResponse.new d
  = UploadDocumentResponse.mk (lit "File uploaded successfully") (doc_id d) (name d)
      (js_truthy_str (path d)) (createdAt d) (updatedAt d).
Proof. destruct d; reflexivity. Qed.

Lemma GetDocumentContentResponse_new_fields (d : Document) (c : jsstr) :
  GetDocumentContentResponse.new d c
  = GetDocumentContentResponse.mk (doc_id d) (name d) (js_truthy_str (path d)) c.
Proof. destruct d; reflexivity. Qed.

(** X17. Under the file system backend, with the database reachable, an
    upload through the route of [index.ts] (disk storage, then
    [uploadDocument]) succeeds: the response carries the original name and
    the path multer wrote the file to, [uploadsDir/<Date.now()>-<name>].
    Reading the returned id through the controller then gives that name,
    that path and the uploaded bytes decoded. *)
Theorem upload_pipeline_fs_roundtrip (utf8_decode : bytes -> jsstr) (uploadsDir : jsstr)
    (cfg : BaseConfig) (nm : jsstr) (content : bytes) (w : World)
    (Hcfg : active_backend cfg = Filesystem) (Hdb : w_db_fault w = None) :
  exists resp w1 w2,
    upload_pipeline uploadsDir cfg nm content w = (Ok resp, w1)
    /\ UploadDocumentResponse.name resp = nm
    /\ UploadDocumentResponse.path resp
       = Some (uploadsDir ++ lit "/" ++ dec_string (w_now w) ++ lit "-" ++ nm)
    /\ DocumentController.getDocumentContent utf8_decode cfg (UploadDocumentResponse.id resp) w1
       = (Ok (GetDocumentContentResponse.mk (UploadDocumentResponse.id resp) nm
                (UploadDocumentResponse.path resp) (utf8_decode content)), w2).
Proof.
  unfold active_backend in Hcfg.
  destruct (isS3Storage cfg) eqn:Hs3; [discriminate|].
  destruct (isMongoDBStorage cfg) eqn:Hm; [discriminate|].
  set (p := uploadsDir ++ lit "/" ++ dec_string (w_now w) ++ lit "-" ++ nm).
  assert (Htp : js_truthy_str (@Some jsstr p) = Some p) by (unfold p; destruct uploadsDir; reflexivity).
  assert (Htp' : js_truthy_str (@Some (list N) p) = Some p) by exact Htp.
  assert (Hc : exists d w1,
             createDocument cfg nm (Some p) None (with_fs (put_key p content (w_fs w)) w)
             = (Ok d, w1)).
  { unfold createDocument. rewrite Hs3, Hm, ?Htp, ?Htp'. unfold repo_save. proj. rewrite Hdb.
    eexists _, _; reflexivity. }
  destruct Hc as (d & w1 & Hc).
  destruct (createDocument_ok _ _ _ _ _ _ _ Hc) as (Hid & Hhd & Hdbf1 & Hfs1 & Hname & Hloc).
  unfold active_backend in Hloc; rewrite Hs3, Hm in Hloc.
  destruct Hloc as (p' & Hp' & Hpd & _ & _ & _).
  rewrite ?Htp, ?Htp' in Hp'; injection Hp' as Hpp; subst p'.
  assert (Hg : getDocumentContent utf8_decode cfg (doc_id d) w1
               = (Ok (d, utf8_decode content),
                  log_event (EvReadFile p) (log_event (EvDbFind (doc_id d)) w1))).
  { unfold getDocumentContent.
    rewrite (bind_ok _ _ _ _ _ (getDocumentById_saved d w1 _ Hid Hdbf1 Hhd)).
    mreduce. rewrite Hs3, Hm, Hpd, ?Htp, ?Htp'. unfold fs_readFile. proj.
    rewrite Hfs1, lookup_put. reflexivity. }
  exists (UploadDocumentResponse.new d), w1.
  unfold upload_pipeline, bind at 1, Multer.diskStorage at 1. cbn beta iota zeta.
  fold p.
  unfold DocumentController.uploadDocument. rewrite Hs3, Hm. cbn [Multer.path Multer.originalname].
  rewrite (bind_ok _ _ _ _ _ Hc).
  unfold DocumentController.getDocumentContent.
  rewrite UploadDocumentResponse_new_fields. cbn [UploadDocumentResponse.id
    UploadDocumentResponse.name UploadDocumentResponse.path].
  rewrite (bind_ok _ _ _ _ _ Hg). unfold ret. cbn [fst snd].
  rewrite GetDocumentContentResponse_new_fields, Hname, Hpd, ?Htp, ?Htp'.
  eexists; split; [reflexivity|]. split; [reflexivity|]. split; reflexivity.
Qed.

Lemma upload_pipeline_fs_roundtrip_witness :
  active_backend cfg_fs = Filesystem /\ w_db_fault world0 = None
  /\ exists resp w1 w2,
       upload_pipeline (lit "/srv/uploads") cfg_fs (lit "a.txt") hello world0 = (Ok resp, w1)
       /\ DocumentController.getDocumentContent ascii_decode cfg_fs
            (UploadDocumentResponse.id resp) w1
          = (Ok (GetDocumentContentResponse.mk (UploadDocumentResponse.id resp) (lit "a.txt")
                   (UploadDocumentResponse.path resp) (lit "hello")), w2).
Proof.
  split; [reflexivity|]. split; [reflexivity|].
  destruct (upload_pipeline_fs_roundtrip ascii_decode (lit "/srv/uploads") cfg_fs (lit "a.txt")
              hello world0 eq_refl eq_refl) as (resp & w1 & w2 & H1 & _ & _ & H4).
  exists resp, w1, w2. split; [exact H1 | exact H4].
Defined.

(** X18. Under S3 and MongoDB the upload route of [index.ts] always fails:
    the disk storage of multer gives the controller a file with a [path]
    and no [buffer], and the controller passes only [file.buffer] to
    [createDocument] under these backends. The error is the backend's
    ["Either path or fileBuffer must be provided for ... storage"]; the
    service makes no S3 or database call, nothing is uploaded and nothing
    is saved, while the file multer wrote stays in the uploads
    directory. *)
Theorem upload_pipeline_blob_backends_fail (uploadsDir : jsstr) (cfg : BaseConfig)
    (nm : jsstr) (content : bytes) (w : World) (Hcfg : active_backend cfg <> Filesystem) :
  exists w1, upload_pipeline uploadsDir cfg nm content w
     = (Err (if isS3Storage cfg then lit "Either path or fileBuffer must be provided for S3 storage"
             else lit "Either path or fileBuffer must be provided for MongoDB storage"), w1)
  /\ w_db w1 = w_db w /\ w_s3 w1 = w_s3 w /\ w_log w1 = w_log w
  /\ lookup (uploadsDir ++ lit "/" ++ dec_string (w_now w) ++ lit "-" ++ nm) (w_fs w1)
     = Some content.
Proof.
  unfold active_backend in Hcfg.
  unfold upload_pipeline, bind at 1, Multer.diskStorage at 1. cbn beta iota zeta.
  unfold DocumentController.uploadDocument. cbn [Multer.buffer Multer.originalname].
  destruct (isS3Storage cfg) eqn:Hs3;
    [|destruct (isMongoDBStorage cfg) eqn:Hm; [|exfalso; apply Hcfg; reflexivity]];
    unfold createDocument; rewrite ?Hs3, ?Hm; mreduce;
    (eexists; split; [reflexivity|]); proj; (split; [reflexivity|]);
    (split; [reflexivity|]); (split; [reflexivity|]); apply lookup_put.
Qed.

Lemma upload_pipeline_blob_backends_fail_witness :
  active_backend cfg_s3 <> Filesystem
  /\ exists w1, upload_pipeline (lit "/srv/uploads") cfg_s3 (lit "a.txt") hello world0
       = (Err (lit "Either path or fileBuffer must be provided for S3 storage"), w1).
Proof.
  assert (H : active_backend cfg_s3 <> Filesystem) by discriminate.
  split; [exact H|].
  destruct (upload_pipeline_blob_backends_fail (lit "/srv/uploads") cfg_s3 (lit "a.txt") hello
              world0 H) as (w1 & H1 & _).
  exists w1. exact H1.
Defined.

(** ** Listing through the controller *)

Lemma StronglySorted_map {A B} (R : A -> A -> Prop) (R' : B -> B -> Prop) (f : A -> B)
    (l : list A) :
  (forall a b, R a b -> R' (f a) (f b)) -> StronglySorted R l -> StronglySorted R' (map f l).
Proof.
  intros HR; induction 1 as [|a l _ IH Hf]; simpl; constructor; [exact IH|].
  apply Forall_map. eapply Forall_impl; [|exact Hf]. intros b Hb; apply HR; exact Hb.
Qed.

(** X19. With the database reachable, [listDocuments] returns one item per
    stored record, each with the record's id, name, path and timestamps,
    most recent [createdAt] first; it changes no storage. *)
Theorem listDocuments_items (w : World) (Hdb : w_db_fault w = None) :
  exists items w', DocumentController.listDocuments w = (Ok items, w')
  /\ Permutation items (map DocumentController.to_item (w_db w))
  /\ StronglySorted (fun a b => (DocumentController.createdAt b <= DocumentController.createdAt a)%N)
       items
  /\ same_storage w w'.
Proof.
  exists (map DocumentController.to_item (sort_desc (w_db w))), (log_event EvDbFindAll w).
  unfold DocumentController.listDocuments, getAllDocuments, repo_find_desc. mreduce.
  rewrite Hdb. split; [reflexivity|].
  split; [apply Permutation_map, sort_desc_perm|].
  split; [|unfold same_storage; proj; auto].
  apply (StronglySorted_map newer_first); [|apply sort_desc_sorted].
  intros [] [] H; exact H.
Qed.

Lemma listDocuments_items_witness :
  w_db_fault world_three = None
  /\ exists items w', DocumentController.listDocuments world_three = (Ok items, w')
     /\ map DocumentController.id items = [hex24 3; hex24 2; hex24 1].
Proof.
  split; [reflexivity|].
  destruct (listDocuments_items world_three eq_refl) as (items & w' & H & _).
  exists items, w'. split; [exact H|].
  vm_compute in H. injection H as <- _. reflexivity.
Defined.

(** ** Object keys *)

